(** * StreamGL server: streaming protocol and flow control (server.js)

    A shallow embedding of [server.js].  The server is a single-threaded
    event loop: every callback (socket message, HTTP request, tick of the
    animation, completion of an asynchronous call) runs to completion
    before the next one starts.  The embedding therefore is a state
    machine: one state record for the module's globals and closures, one
    function per callback, and [step] dispatching an incoming event to
    its callback.

    Rx pipelines are defunctionalised: an observer waiting on a subject
    is recorded as the phase of the connection that owns it, and a
    subject's [onNext] is the function that moves those phases.

    Modelling boundary.
    - JS objects used as dictionaries are finite maps over their own
      properties; keys inherited from [Object.prototype] are not modelled.
    - A query parameter is a string or absent ([undefined]).
    - [driver], [compress], [renderer], socket.io and Express are
      external: their calls are recorded as effects, their asynchronous
      answers arrive as events.
    - An asynchronous call answers in a later turn of the event loop:
      [driver.fetchData], [fs.readFile] and [compress.deflate] deliver
      through the events [Fetched], [FileRead] and [Deflated].
    - Only [onNext] and the completion that [take(1)] brings are
      modelled; no pipeline fails ([onError]).
    - [debug(...)] logging, the [nocache] headers and the telemetry
      variables [clientElapsed] and [clientAckStartTime] have no
      influence on control flow and are left out of the state machine;
      [vboSizeMB], which only feeds the log, is modelled on its own. *)

From Stdlib Require Import Lia.
From stdpp Require Import gmap strings list.

Local Open Scope string_scope.
Local Open Scope list_scope.

(** ** Data *)

(** A tick of the animation.  The server never looks inside one. *)
Definition Snapshot := nat.

(** A Node [Buffer]. *)
Definition Buffer := list Byte.byte.

(** What [driver.fetchData] delivers: the fields the server reads. *)
Record Vbos := mkVbos {
  compressed : gmap string Buffer;
  bufferByteLengths : gmap string nat;
  elements : gmap string nat
}.

(** The value [img] emits (lines 143-148). *)
Record Texture := mkTexture {
  buffer : Buffer;
  bytes : nat;
  width : nat;
  height : nat
}.

(** [_.pick(colorTexture, ['width', 'height', 'bytes'])] *)
Record TextureMeta := mkTextureMeta {
  tm_width : nat;
  tm_height : nat;
  tm_bytes : nat
}.

(** The payload of [vbo_update] (lines 282-288). *)
Record Lengths := mkLengths {
  l_bufferByteLengths : gmap string nat;
  l_colorMap : TextureMeta;
  l_elements : gmap string nat
}.

(** The closure stored in [finishBufferTransfers[socket.id]] (lines
    263-274): its private array, the length it compares against, and the
    [sendingAllBuffers] subject it signals. *)
Record Tracker := mkTracker {
  transferredBuffers : list (option string);
  tr_expected : nat;
  tr_subject : nat
}.

(** Where a connection's [expand] loop is suspended. *)
Inductive Phase :=
| AwaitSnapshot (c : nat)
    (* subscribed to cache [c]; nothing replayed yet *)
| Fetch (g : Snapshot)
    (* 1. [driver.fetchData(g, ...)] in flight *)
| Throttle (g : Snapshot) (vbos : Vbos)
    (* 2. [clientReady.filter(_.identity).take(1)] pending *)
| AwaitDelivery (g : Snapshot) (subj : nat)
    (* 3. [sendingAllBuffers.take(1)] pending on subject [subj] *)
| AwaitTick (g : Snapshot) (b : nat).
    (* 4. [ticksMulti.take(1)] pending on broadcaster [b] *)

(** Effects of one connection's closure, oldest first. *)
Inductive SocketEffect :=
| FetchData (g : Snapshot) (names : list string)  (* driver.fetchData *)
| ReadyNext (b : bool)                            (* clientReady.onNext(b) *)
| VboUpdate (l : Lengths)                         (* socket.emit('vbo_update') *)
| ResetAck.                                       (* cb() of reset_graph *)

(** The variables of one [io.on('connection')] closure. *)
Record Conn := mkConn {
  activeBuffers : list string;
  clientReady : bool;             (* last value of the ReplaySubject(1) *)
  phase : Phase;
  awaitingTexture : list Vbos;    (* line 280 subscriptions not yet served *)
  socket_log : list SocketEffect
}.

(** [animStep.ticks.publish()] *)
Record Broadcaster := mkBroadcaster {
  bc_source : nat;                (* the animation whose ticks it carries *)
  bc_connected : bool;            (* [connect()] was called *)
  bc_first : option nat;          (* cache behind a live [take(1)] *)
  bc_emitted : list Snapshot      (* ticks passed on so far *)
}.

(** Stages of the cold pipeline [img] after its single subscription. *)
Inductive ImgStage :=
| NotStarted
| Reading
| Deflating (raw : Buffer)
| Done.

(** Effects outside any one connection's closure, oldest first. *)
Inductive Effect :=
| DriverCreate (a : nat)                      (* driver.create() *)
| Proxy (a : nat) (payload : string)          (* animStep.proxy(payload) *)
| ReadFile                                    (* fs.readFile('test-colormap2.rgba') *)
| Deflate (raw : Buffer)                      (* compress.deflate(buffer, ...) *)
| SetHeader (rid : nat)                       (* res.set('Content-Encoding', 'gzip') *)
| Send (rid : nat) (body : option Buffer)     (* res.send(body) *)
| ConsoleError (rid : nat)                    (* console.error('bad request', ...) *)
| Uncaught (rid : nat)                        (* TypeError leaving the handler *)
| SendingAll (id : string) (subj : nat).      (* sendingAllBuffers.onNext() *)

(** The module's globals, the objects they point to, and the closures. *)
Record Server := mkServer {
  renderConfig : list string;     (* renderer.getServerBufferNames(renderConfig) *)
  lastCompressedVbos : gmap string (gmap string Buffer);
  finishBufferTransfers : gmap string Tracker;
  animStep : nat;
  ticksMulti : nat;
  graph : nat;
  sources : nat;                  (* animations created so far *)
  broadcasters : list Broadcaster;
  caches : list (option Snapshot);(* each a ReplaySubject(1) buffer *)
  img : ImgStage;
  colorTexture : option Texture;  (* ReplaySubject(1) buffer *)
  textureWaiters : list nat;      (* /texture requests not yet answered *)
  subjects : nat;                 (* sendingAllBuffers subjects created *)
  sockets : gmap string Conn;
  effects : list Effect
}.

(** ** Field updates *)

Definition set_lastCompressedVbos v (s : Server) : Server :=
  mkServer (renderConfig s) v (finishBufferTransfers s) (animStep s)
    (ticksMulti s) (graph s) (sources s) (broadcasters s) (caches s) (img s)
    (colorTexture s) (textureWaiters s) (subjects s) (sockets s) (effects s).

Definition set_finishBufferTransfers v (s : Server) : Server :=
  mkServer (renderConfig s) (lastCompressedVbos s) v (animStep s)
    (ticksMulti s) (graph s) (sources s) (broadcasters s) (caches s) (img s)
    (colorTexture s) (textureWaiters s) (subjects s) (sockets s) (effects s).

Definition set_animStep v (s : Server) : Server :=
  mkServer (renderConfig s) (lastCompressedVbos s) (finishBufferTransfers s) v
    (ticksMulti s) (graph s) (sources s) (broadcasters s) (caches s) (img s)
    (colorTexture s) (textureWaiters s) (subjects s) (sockets s) (effects s).

Definition set_ticksMulti v (s : Server) : Server :=
  mkServer (renderConfig s) (lastCompressedVbos s) (finishBufferTransfers s)
    (animStep s) v (graph s) (sources s) (broadcasters s) (caches s) (img s)
    (colorTexture s) (textureWaiters s) (subjects s) (sockets s) (effects s).

Definition set_graph v (s : Server) : Server :=
  mkServer (renderConfig s) (lastCompressedVbos s) (finishBufferTransfers s)
    (animStep s) (ticksMulti s) v (sources s) (broadcasters s) (caches s)
    (img s) (colorTexture s) (textureWaiters s) (subjects s) (sockets s)
    (effects s).

Definition set_sources v (s : Server) : Server :=
  mkServer (renderConfig s) (lastCompressedVbos s) (finishBufferTransfers s)
    (animStep s) (ticksMulti s) (graph s) v (broadcasters s) (caches s)
    (img s) (colorTexture s) (textureWaiters s) (subjects s) (sockets s)
    (effects s).

Definition set_broadcasters v (s : Server) : Server :=
  mkServer (renderConfig s) (lastCompressedVbos s) (finishBufferTransfers s)
    (animStep s) (ticksMulti s) (graph s) (sources s) v (caches s) (img s)
    (colorTexture s) (textureWaiters s) (subjects s) (sockets s) (effects s).

Definition set_caches v (s : Server) : Server :=
  mkServer (renderConfig s) (lastCompressedVbos s) (finishBufferTransfers s)
    (animStep s) (ticksMulti s) (graph s) (sources s) (broadcasters s) v
    (img s) (colorTexture s) (textureWaiters s) (subjects s) (sockets s)
    (effects s).

Definition set_img v (s : Server) : Server :=
  mkServer (renderConfig s) (lastCompressedVbos s) (finishBufferTransfers s)
    (animStep s) (ticksMulti s) (graph s) (sources s) (broadcasters s)
    (caches s) v (colorTexture s) (textureWaiters s) (subjects s) (sockets s)
    (effects s).

Definition set_colorTexture v (s : Server) : Server :=
  mkServer (renderConfig s) (lastCompressedVbos s) (finishBufferTransfers s)
    (animStep s) (ticksMulti s) (graph s) (sources s) (broadcasters s)
    (caches s) (img s) v (textureWaiters s) (subjects s) (sockets s)
    (effects s).

Definition set_textureWaiters v (s : Server) : Server :=
  mkServer (renderConfig s) (lastCompressedVbos s) (finishBufferTransfers s)
    (animStep s) (ticksMulti s) (graph s) (sources s) (broadcasters s)
    (caches s) (img s) (colorTexture s) v (subjects s) (sockets s)
    (effects s).

Definition set_subjects v (s : Server) : Server :=
  mkServer (renderConfig s) (lastCompressedVbos s) (finishBufferTransfers s)
    (animStep s) (ticksMulti s) (graph s) (sources s) (broadcasters s)
    (caches s) (img s) (colorTexture s) (textureWaiters s) v (sockets s)
    (effects s).

Definition set_sockets v (s : Server) : Server :=
  mkServer (renderConfig s) (lastCompressedVbos s) (finishBufferTransfers s)
    (animStep s) (ticksMulti s) (graph s) (sources s) (broadcasters s)
    (caches s) (img s) (colorTexture s) (textureWaiters s) (subjects s) v
    (effects s).

Definition effect (e : Effect) (s : Server) : Server :=
  mkServer (renderConfig s) (lastCompressedVbos s) (finishBufferTransfers s)
    (animStep s) (ticksMulti s) (graph s) (sources s) (broadcasters s)
    (caches s) (img s) (colorTexture s) (textureWaiters s) (subjects s)
    (sockets s) (effects s ++ [e]).

Definition set_clientReady v (c : Conn) : Conn :=
  mkConn (activeBuffers c) v (phase c) (awaitingTexture c) (socket_log c).

Definition set_phase v (c : Conn) : Conn :=
  mkConn (activeBuffers c) (clientReady c) v (awaitingTexture c) (socket_log c).

Definition set_awaitingTexture v (c : Conn) : Conn :=
  mkConn (activeBuffers c) (clientReady c) (phase c) v (socket_log c).

Definition socket_effect (e : SocketEffect) (c : Conn) : Conn :=
  mkConn (activeBuffers c) (clientReady c) (phase c) (awaitingTexture c)
    (socket_log c ++ [e]).

(** Apply [f] to the closure of socket [id], if there is one. *)
Definition on_socket (id : string) (f : Conn -> Conn) (s : Server) : Server :=
  set_sockets (alter f id (sockets s)) s.

Definition set_connected (bc : Broadcaster) : Broadcaster :=
  mkBroadcaster (bc_source bc) true (bc_first bc) (bc_emitted bc).

Definition set_first v (bc : Broadcaster) : Broadcaster :=
  mkBroadcaster (bc_source bc) (bc_connected bc) v (bc_emitted bc).

Definition emitted (g : Snapshot) (bc : Broadcaster) : Broadcaster :=
  mkBroadcaster (bc_source bc) (bc_connected bc) None (bc_emitted bc ++ [g]).

(** ** Initialisation: [resetState] (lines 57-76) *)

(** [lastCompressedVbos = {}; finishBufferTransfers = {};] *)
Definition clear_maps (s : Server) : Server :=
  set_finishBufferTransfers ∅ (set_lastCompressedVbos ∅ s).

(** [animStep = driver.create();] *)
Definition driver_create (s : Server) : Server :=
  effect (DriverCreate (sources s))
    (set_sources (S (sources s)) (set_animStep (sources s) s)).

(** [ticksMulti = animStep.ticks.publish();] *)
Definition publish (s : Server) : Server :=
  set_broadcasters
    (broadcasters s ++ [mkBroadcaster (animStep s) false None []])
    (set_ticksMulti (length (broadcasters s)) s).

(** [ticksMulti.connect();] *)
Definition connect (s : Server) : Server :=
  set_broadcasters (alter set_connected (ticksMulti s) (broadcasters s)) s.

(** [graph = new Rx.ReplaySubject(1);] *)
Definition new_cache (s : Server) : Server :=
  set_caches (caches s ++ [None]) (set_graph (length (caches s)) s).

(** [ticksMulti.take(1).subscribe(graph);] *)
Definition subscribe_first (s : Server) : Server :=
  set_broadcasters
    (alter (set_first (Some (graph s))) (ticksMulti s) (broadcasters s)) s.

Definition resetState (s : Server) : Server :=
  subscribe_first (new_cache (connect (publish (driver_create (clear_maps s))))).

(** ** The texture pipeline (lines 124-152) *)

(** [img.take(1).subscribe(colorTexture)]: the only subscription [img]
    ever gets; subscribing issues [fs.readFile]. *)
Definition subscribe_img (s : Server) : Server :=
  match img s with
  | NotStarted => effect ReadFile (set_img Reading s)
  | _ => s
  end.

(** The callback of [fs.readFile]: [flatMap] calls [compress.deflate]. *)
Definition file_read (raw : Buffer) (s : Server) : Server :=
  match img s with
  | Reading => effect (Deflate raw) (set_img (Deflating raw) s)
  | _ => s
  end.

(** [res.set('Content-Encoding', 'gzip'); res.send(data);] (lines 182-183) *)
Definition send_texture (data : Buffer) (rid : nat) (s : Server) : Server :=
  effect (Send rid (Some data)) (effect (SetHeader rid) s).

(** Lines 282-288. *)
Definition lengths (vbos : Vbos) (tx : Texture) : Lengths :=
  mkLengths (bufferByteLengths vbos)
    (mkTextureMeta (width tx) (height tx) (bytes tx)) (elements vbos).

(** [emitFnWrapper('vbo_update', lengths)] for every subscription of line
    280 that was waiting for the texture. *)
Definition flush_awaiting (tx : Texture) (c : Conn) : Conn :=
  set_awaitingTexture []
    (foldl (fun c vbos => socket_effect (VboUpdate (lengths vbos tx)) c)
       c (awaitingTexture c)).

(** [colorTexture.onNext(tx)]: store and serve whoever is subscribed. *)
Definition colorTexture_onNext (tx : Texture) (s : Server) : Server :=
  let s := set_colorTexture (Some tx) s in
  let s := foldl (fun s rid => send_texture (buffer tx) rid s) s
             (textureWaiters s) in
  let s := set_textureWaiters [] s in
  set_sockets (flush_awaiting tx <$> sockets s) s.

(** The callback of [compress.deflate]: the two [map]s build the texture
    entry, [take(1)] hands it to [colorTexture]. *)
Definition deflated (compressed0 : Buffer) (s : Server) : Server :=
  match img s with
  | Deflating raw =>
      colorTexture_onNext (mkTexture compressed0 (length raw) 512 512)
        (set_img Done s)
  | _ => s
  end.

(** ** Module load *)

(** The state before line 79 runs. *)
Definition blank (cfg : list string) : Server :=
  mkServer cfg ∅ ∅ 0 0 0 0 [] [] NotStarted None [] 0 ∅ [].

(** Line 79 and line 151. *)
Definition boot (cfg : list string) : Server :=
  subscribe_img (resetState (blank cfg)).

(** ** The delivery loop (lines 235-310) *)

(** [clientReady.onNext(v)] as far as the subject itself goes. *)
Definition ready_store (v : bool) (c : Conn) : Conn :=
  socket_effect (ReadyNext v) (set_clientReady v c).

(** State 1: [driver.fetchData(graph, compress, activeBuffers, ...)]. *)
Definition start_fetch (g : Snapshot) (c : Conn) : Conn :=
  socket_effect (FetchData g (activeBuffers c)) (set_phase (Fetch g) c).

(** State 3 (lines 256-301): a fresh subject and array, the tracker
    installed under [socket.id], the notification sent as soon as the
    texture is there, the loop parked on the subject. *)
Definition notify (id : string) (g : Snapshot) (vbos : Vbos) (s : Server)
  : Server :=
  match sockets s !! id with
  | None => s
  | Some c =>
      let subj := subjects s in
      let s := set_subjects (S subj) s in
      let s := set_finishBufferTransfers
                 (<[id := mkTracker [] (length (activeBuffers c)) subj]>
                    (finishBufferTransfers s)) s in
      let s := match colorTexture s with
               | Some tx =>
                   on_socket id (socket_effect (VboUpdate (lengths vbos tx))) s
               | None =>
                   on_socket id
                     (fun c => set_awaitingTexture (awaitingTexture c ++ [vbos]) c) s
               end in
      on_socket id (set_phase (AwaitDelivery g subj)) s
  end.

(** Lines 250-254: the [do] clears the flag, then the value flows into
    state 3.  The [false] it pushes reaches only [filter], which drops it. *)
Definition proceed (id : string) (g : Snapshot) (vbos : Vbos) (s : Server)
  : Server :=
  notify id g vbos (on_socket id (ready_store false) s).

(** State 2 (lines 245-255): subscribing to the ReplaySubject replays its
    last value into [filter(_.identity).take(1)]. *)
Definition throttle (id : string) (g : Snapshot) (vbos : Vbos) (s : Server)
  : Server :=
  match sockets s !! id with
  | None => s
  | Some c =>
      if clientReady c then proceed id g vbos s
      else on_socket id (set_phase (Throttle g vbos)) s
  end.

(** [driver.fetchData] delivers: the [do] of lines 240-244, then state 2. *)
Definition fetched (id : string) (vbos : Vbos) (s : Server) : Server :=
  match sockets s !! id with
  | None => s
  | Some c =>
      match phase c with
      | Fetch g =>
          throttle id g vbos
            (set_lastCompressedVbos
               (<[id := compressed vbos]> (lastCompressedVbos s)) s)
      | _ => s
      end
  end.

(** [clientReady.onNext(v)] from outside the loop: store, then serve the
    loop if it is parked in state 2. *)
Definition clientReady_onNext (id : string) (v : bool) (s : Server) : Server :=
  let s := on_socket id (ready_store v) s in
  match sockets s !! id with
  | None => s
  | Some c =>
      match phase c with
      | Throttle g vbos => if v then proceed id g vbos s else s
      | _ => s
      end
  end.

(** [sendingAllBuffers.onNext()] on subject [subj] of socket [id]:
    [take(1)] passes it on and state 4 subscribes to the broadcaster the
    global [ticksMulti] names at that moment (lines 302-307). *)
Definition sendingAllBuffers_onNext (id : string) (subj : nat) (s : Server)
  : Server :=
  let s := effect (SendingAll id subj) s in
  match sockets s !! id with
  | None => s
  | Some c =>
      match phase c with
      | AwaitDelivery g subj' =>
          if decide (subj' = subj)
          then on_socket id (set_phase (AwaitTick g (ticksMulti s))) s
          else s
      | _ => s
      end
  end.

(** What a tick of broadcaster [b] does to one loop.  [first] is the
    cache that took the tick through [take(1)], if any.  Line 308 maps
    the tick to the [graph] the cycle was started with: inside the
    [expand] callback [graph] is the callback's parameter. *)
Definition conn_tick (b : nat) (first : option nat) (g : Snapshot) (c : Conn)
  : Conn :=
  match phase c with
  | AwaitSnapshot c0 =>
      if decide (first = Some c0) then start_fetch g c else c
  | AwaitTick g0 b0 =>
      if decide (b0 = b) then start_fetch g0 c else c
  | _ => c
  end.

(** The animation behind broadcaster [b] emits [g]. *)
Definition tick (b : nat) (g : Snapshot) (s : Server) : Server :=
  match broadcasters s !! b with
  | None => s
  | Some bc =>
      if bc_connected bc then
        let s := set_broadcasters (<[b := emitted g bc]> (broadcasters s)) s in
        let s := match bc_first bc with
                 | Some c => set_caches (<[c := Some g]> (caches s)) s
                 | None => s
                 end in
        set_sockets (conn_tick b (bc_first bc) g <$> sockets s) s
      else s
  end.

(** ** The pull endpoints *)

(** A property key: [obj[undefined]] reads the property ["undefined"]. *)
Definition prop_key (q : option string) : string := default "undefined" q.

(** The tracker closure (lines 264-274) applied to [bufferName]. *)
Definition finishBufferTransfer (id : string) (tr : Tracker)
    (bufferName : option string) (s : Server) : Server :=
  let pushed := transferredBuffers tr ++ [bufferName] in
  let s := set_finishBufferTransfers
             (<[id := mkTracker pushed (tr_expected tr) (tr_subject tr)]>
                (finishBufferTransfers s)) s in
  if decide (length pushed = tr_expected tr)
  then sendingAllBuffers_onNext id (tr_subject tr) s
  else s.

(** The body of the [try] of lines 109-116.  [None] stands for the
    TypeError of reading a property of [undefined]; the argument of
    [res.send] is evaluated before the call. *)
Definition try_send_vbo (rid : nat) (bufferName id : option string)
    (s : Server) : option Server :=
  let s := effect (SetHeader rid) s in
  match lastCompressedVbos s !! prop_key id with
  | None => None
  | Some set => Some (effect (Send rid (set !! prop_key bufferName)) s)
  end.

(** [finishBufferTransfers[id](bufferName)] (line 121), outside the
    [try]: calling [undefined] raises a TypeError nothing catches. *)
Definition call_tracker (rid : nat) (bufferName id : option string)
    (s : Server) : Server :=
  match finishBufferTransfers s !! prop_key id with
  | None => effect (Uncaught rid) s
  | Some tr => finishBufferTransfer (prop_key id) tr bufferName s
  end.

(** [app.get('/vbo', ...)] (lines 106-122).  The handler registered again
    at line 156 has the same body and never runs: the first one answers
    and does not call [next]. *)
Definition get_vbo (rid : nat) (q_buffer q_id : option string) (s : Server)
  : Server :=
  let bufferName := q_buffer in
  let id := q_id in
  let s :=
    match try_send_vbo rid bufferName id s with
    | Some s' => s'
    | None => effect (ConsoleError rid) (effect (SetHeader rid) s)
    end in
  call_tracker rid bufferName id s.

(** [app.get('/texture', ...)] (lines 174-189): subscribing to
    [colorTexture.pluck('buffer')] answers at once when the subject holds
    the texture and parks the request otherwise. *)
Definition get_texture (rid : nat) (q_texture q_id : option string)
    (s : Server) : Server :=
  let textureName := q_texture in
  let id := q_id in
  match colorTexture s with
  | Some tx => send_texture (buffer tx) rid s
  | None => set_textureWaiters (textureWaiters s ++ [rid]) s
  end.

(** ** The control channel (lines 193-232) *)

(** [io.on('connection', ...)].  Socket ids are unique; a second
    connection under a live id does not occur.  The subject [clientReady]
    is created empty and given [true] at once (lines 225-226): the [false]
    in the record below is never observed. *)
Definition connection (id : string) (s : Server) : Server :=
  match sockets s !! id with
  | Some _ => s
  | None =>
      let s := set_lastCompressedVbos (<[id := ∅]> (lastCompressedVbos s)) s in
      let c := ready_store true
                 (mkConn (renderConfig s) false (AwaitSnapshot (graph s)) [] []) in
      let c := match caches s !! graph s with
               | Some (Some g) => start_fetch g c
               | _ => c
               end in
      set_sockets (<[id := c]> (sockets s)) s
  end.

(** [socket.on('disconnect', ...)] *)
Definition disconnect (id : string) (s : Server) : Server :=
  set_lastCompressedVbos (delete id (lastCompressedVbos s)) s.

(** [socket.on('graph_settings', ...)] *)
Definition graph_settings (payload : string) (s : Server) : Server :=
  effect (Proxy (animStep s) payload) s.

(** [socket.on('reset_graph', ...)] *)
Definition reset_graph (id : string) (s : Server) : Server :=
  on_socket id (socket_effect ResetAck) (resetState s).

(** [socket.on('received_buffers', ...)] *)
Definition received_buffers (id : string) (time : nat) (s : Server) : Server :=
  clientReady_onNext id true s.

(** ** Events *)

Inductive Event :=
| Connection (id : string)
| Disconnect (id : string)
| GraphSettings (id : string) (payload : string)
| ResetGraph (id : string)
| ReceivedBuffers (id : string) (time : nat)
| Tick (b : nat) (g : Snapshot)
| Fetched (id : string) (vbos : Vbos)
| FileRead (raw : Buffer)
| Deflated (compressed0 : Buffer)
| GetVbo (rid : nat) (q_buffer q_id : option string)
| GetTexture (rid : nat) (q_texture q_id : option string).

Definition is_open (id : string) (s : Server) : bool :=
  bool_decide (is_Some (sockets s !! id)).

(** Socket messages reach the handlers of an existing closure only. *)
Definition step (s : Server) (ev : Event) : Server :=
  match ev with
  | Connection id => connection id s
  | Disconnect id => if is_open id s then disconnect id s else s
  | GraphSettings id payload =>
      if is_open id s then graph_settings payload s else s
  | ResetGraph id => if is_open id s then reset_graph id s else s
  | ReceivedBuffers id time => received_buffers id time s
  | Tick b g => tick b g s
  | Fetched id vbos => fetched id vbos s
  | FileRead raw => file_read raw s
  | Deflated c => deflated c s
  | GetVbo rid b id => get_vbo rid b id s
  | GetTexture rid t id => get_texture rid t id s
  end.

Definition run (s : Server) (evs : list Event) : Server := foldl step s evs.

(** ** Observations *)

Definition phase_of (id : string) (s : Server) : option Phase :=
  phase <$> sockets s !! id.

Definition ready_of (id : string) (s : Server) : option bool :=
  clientReady <$> sockets s !! id.

Definition log_of (id : string) (s : Server) : list SocketEffect :=
  default [] (socket_log <$> sockets s !! id).

(** The distinct names among the values a tracker has been given. *)
Definition distinct_pulled (tr : Tracker) : list (option string) :=
  remove_dups (transferredBuffers tr).

Definition is_SendingAll (e : Effect) : bool :=
  match e with SendingAll _ _ => true | _ => false end.

Definition is_ReadFile (e : Effect) : bool :=
  match e with ReadFile => true | _ => false end.

Definition is_Deflate (e : Effect) : bool :=
  match e with Deflate _ => true | _ => false end.

(** How often an effect of a given kind occurred. *)
Definition count (p : Effect -> bool) (s : Server) : nat :=
  length (List.filter p (effects s)).

(** The requests of a client pulling [names] for connection [id]. *)
Definition pull_requests (id : string) (names : list (option string))
  : list Event :=
  imap (fun i n => GetVbo i n (Some id)) names.

(** What state 3 sends at once: the notification if the texture is
    there, nothing yet otherwise. *)
Definition notification (s : Server) (vbos : Vbos) : list SocketEffect :=
  match colorTexture s with
  | Some tx => [VboUpdate (lengths vbos tx)]
  | None => []
  end.

(** The observers of broadcaster [b]: the cache behind [take(1)] and the
    loops parked in state 4. *)
Definition awaits_tick (b : nat) (c : Conn) : bool :=
  match phase c with
  | AwaitTick _ b0 => bool_decide (b0 = b)
  | _ => false
  end.

Definition tick_subscribers (b : nat) (s : Server) : nat :=
  match broadcasters s !! b with
  | Some bc => length (option_list (bc_first bc))
  | None => 0
  end + size (filter (fun kc => awaits_tick b kc.2 = true) (sockets s)).

(** The [/texture] requests among a list of events, oldest first. *)
Definition texture_pulls (evs : list Event) : list nat :=
  omap (fun ev => match ev with GetTexture rid _ _ => Some rid | _ => None end)
    evs.

(** What a reset leaves behind, as a newcomer sees it. *)
Definition session (s : Server)
  : gmap string (gmap string Buffer) * gmap string Tracker
    * option (bool * list Snapshot * bool * bool) * option (option Snapshot) :=
  (lastCompressedVbos s, finishBufferTransfers s,
   (fun bc => (bc_connected bc, bc_emitted bc,
               bool_decide (bc_first bc = Some (graph s)),
               bool_decide (bc_source bc = animStep s)))
     <$> broadcasters s !! ticksMulti s,
   caches s !! graph s).

(** The loop of [id] sits in state 2 with the flag down. *)
Definition parked (id : string) (g : Snapshot) (vbos : Vbos) (s : Server)
  : Prop :=
  exists c, sockets s !! id = Some c /\ phase c = Throttle g vbos
            /\ clientReady c = false.

(** [ev] is a [received_buffers] message on socket [id]. *)
Definition is_ack (id : string) (ev : Event) : bool :=
  match ev with
  | ReceivedBuffers id' _ => bool_decide (id' = id)
  | _ => false
  end.

(** [resetState] up to, and not including, [ticksMulti.connect()]. *)
Definition before_connect (s : Server) : Server :=
  publish (driver_create (clear_maps s)).

(** What the [try] of the [/vbo] handler leaves in the effect log after
    the header: the answer, or the caught TypeError. *)
Definition vbo_answer (rid : nat) (q_buffer q_id : option string)
    (s : Server) : Effect :=
  match lastCompressedVbos s !! prop_key q_id with
  | Some set => Send rid (set !! prop_key q_buffer)
  | None => ConsoleError rid
  end.

(** ** The texture pipeline seen from outside *)

(** An effect that loads or compresses the texture. *)
Definition is_texture_work (e : Effect) : bool :=
  is_ReadFile e || is_Deflate e.

(** [s'] differs from [s] by nothing that concerns the texture. *)
Definition quiet (s s' : Server) : Prop :=
  img s' = img s /\ colorTexture s' = colorTexture s
  /\ textureWaiters s' = textureWaiters s
  /\ exists l, effects s' = effects s ++ l
               /\ forallb (fun e => negb (is_texture_work e)) l = true.


(** ** Well-formed sessions *)

(** The part of the state [resetState] replaces. *)
Definition globals (s : Server)
  : list Broadcaster * list (option Snapshot) * nat * nat :=
  (broadcasters s, caches s, ticksMulti s, graph s).

(** Broadcaster [j] is connected and feeds cache [j] through [take(1)]:
    the cache holds the first tick that came through, and the
    subscription is live until then. *)
Definition epoch_ok (s : Server) (j : nat) (bc : Broadcaster) : Prop :=
  bc_connected bc = true
  /\ caches s !! j = Some (head (bc_emitted bc))
  /\ bc_first bc = match bc_emitted bc with [] => Some j | _ => None end.

(** No loop waits on a broadcaster that does not exist. *)
Definition awaits_bounded (s : Server) : Prop :=
  forall id c g b,
    sockets s !! id = Some c -> phase c = AwaitTick g b ->
    b < length (broadcasters s).

Definition epochs_ok (s : Server) : Prop :=
  length (broadcasters s) = length (caches s)
  /\ (forall j bc, broadcasters s !! j = Some bc -> epoch_ok s j bc)
  /\ awaits_bounded s.

(** What holds of every state after line 79. *)
Definition wf (s : Server) : Prop :=
  epochs_ok s /\ ticksMulti s = graph s /\ S (graph s) = length (caches s).

(** ** A sample run *)

Definition sample_vbos : Vbos :=
  mkVbos (<["a" := [Byte.x01]]> (<["b" := [Byte.x02; Byte.x03]]> ∅))
    (<["a" := 1]> (<["b" := 2]> ∅)) ∅.

(** The texture is ready, one tick is out, X connects and its first fetch
    comes back: X has been notified and waits for the pulls. *)
Definition first_cycle : list Event :=
  [FileRead [Byte.x00]; Deflated [Byte.x09]; Tick 0 5; Connection "X";
   Fetched "X" sample_vbos].

(** X has pulled both buffers, the next tick has come and the second
    fetch is under way; X has not acknowledged the first delivery. *)
Definition second_fetch : Server :=
  run (boot ["a"; "b"])
    (first_cycle ++ pull_requests "X" [Some "a"; Some "b"] ++ [Tick 0 6]).

(** X has pulled "a" and then disconnected: its buffers are gone, its
    tracker is still installed and one pull short. *)
Definition gone_after_one_pull : Server :=
  run (boot ["a"; "b"])
    (first_cycle ++ [GetVbo 0 (Some "a") (Some "X"); Disconnect "X"]).

(** ** The size report (lines 86-92) *)

(** [Math.round(x / d)] for an integer [x >= 0] and [d] a power of two:
    the quotient is exact in a double, and [Math.round] takes a half up. *)
Definition round_div (x d : Z) : Z := ((2 * x + d) / (2 * d))%Z.

(** [_.reduce(_.values(vbos.buffers), function (sum, v) { return sum +
    v.byteLength; }, 0)], for the object [vbos.buffers]. *)
Definition vboSizeBytes (buffers : gmap string Buffer) : Z :=
  foldl (fun sum v => (sum + Z.of_nat (length v))%Z) 0%Z
    (snd <$> map_to_list buffers).

(** [vboSizeMB], times 100: the value [Math.round((Math.round(bytes /
    1024) / 1024) * 100)] that line 91 then divides by 100.  Below 2^53
    bytes every step up to that division is exact, so the number the
    function returns is the double nearest to this integer over 100. *)
Definition vboSizeMB_x100 (buffers : gmap string Buffer) : Z :=
  round_div (round_div (vboSizeBytes buffers) 1024 * 100) 1024.

(** ** Whose event it is *)

(** The socket a message, a completed fetch or a buffer request names. *)
Definition addressee (ev : Event) : option string :=
  match ev with
  | Connection id | Disconnect id | GraphSettings id _
  | ReceivedBuffers id _ | Fetched id _ => Some id
  | GetVbo _ _ q_id => Some (prop_key q_id)
  | ResetGraph _ | Tick _ _ | FileRead _ | Deflated _ | GetTexture _ _ _ =>
      None
  end.

(** The epoch a suspended loop is subscribed to, if it waits for a tick:
    the cache it attached to, or the broadcaster of state 4. *)
Definition waits_on (c : Conn) : option nat :=
  match phase c with
  | AwaitSnapshot e => Some e
  | AwaitTick _ b => Some b
  | _ => None
  end.

(** The loop of [id] waits in state 3 and no tracker is installed under
    its id. *)
Definition stranded (id : string) (g : Snapshot) (subj : nat) (s : Server)
  : Prop :=
  phase_of id s = Some (AwaitDelivery g subj)
  /\ finishBufferTransfers s !! id = None.

(** ** The server seen from one socket *)

(** The closure of a loop that has passed state 2 and run state 3 (lines
    250-301): flag down, notification sent or held back, waiting on the
    subject created last. *)
Definition proceeded (s : Server) (c : Conn) (g : Snapshot) (vbos : Vbos)
  : Conn :=
  mkConn (activeBuffers c) false (AwaitDelivery g (subjects s))
    (awaitingTexture c
       ++ match colorTexture s with Some _ => [] | None => [vbos] end)
    (socket_log c ++ ReadyNext false :: notification s vbos).

(** The closure the connection callback builds. *)
Definition fresh_closure (s : Server) : Conn :=
  let c := ready_store true
             (mkConn (renderConfig s) false (AwaitSnapshot (graph s)) [] []) in
  match caches s !! graph s with
  | Some (Some g) => start_fetch g c
  | _ => c
  end.

(** What the completion signal of the tracker under [id] does to the
    closure of [id] when a request pushes [n]. *)
Definition closure_pulled (s : Server) (id : string) (n : option string)
    (c : Conn) : Conn :=
  match finishBufferTransfers s !! id with
  | Some tr =>
      if decide (length (transferredBuffers tr ++ [n]) = tr_expected tr)
      then match phase c with
           | AwaitDelivery g subj' =>
               if decide (subj' = tr_subject tr)
               then set_phase (AwaitTick g (ticksMulti s)) c
               else c
           | _ => c
           end
      else c
  | None => c
  end.

(** What an event does to the closure [c] of an existing socket [id]. *)
Definition closure_step (s : Server) (ev : Event) (id : string) (c : Conn)
  : Conn :=
  match ev with
  | ResetGraph i =>
      if is_open i s
      then if decide (i = id) then socket_effect ResetAck c else c
      else c
  | ReceivedBuffers i _ =>
      if decide (i = id)
      then match phase c with
           | Throttle g vbos => proceeded s (ready_store true c) g vbos
           | _ => ready_store true c
           end
      else c
  | Tick b g =>
      match broadcasters s !! b with
      | Some bc => if bc_connected bc then conn_tick b (bc_first bc) g c else c
      | None => c
      end
  | Fetched i vbos =>
      if decide (i = id)
      then match phase c with
           | Fetch g =>
               if clientReady c then proceeded s c g vbos
               else set_phase (Throttle g vbos) c
           | _ => c
           end
      else c
  | Deflated c0 =>
      match img s with
      | Deflating raw => flush_awaiting (mkTexture c0 (length raw) 512 512) c
      | _ => c
      end
  | GetVbo _ n q =>
      if decide (prop_key q = id) then closure_pulled s id n c else c
  | _ => c
  end.

(** The texture subject after an event. *)
Definition texture_step (s : Server) (ev : Event) : option Texture :=
  match ev with
  | Deflated c0 =>
      match img s with
      | Deflating raw => Some (mkTexture c0 (length raw) 512 512)
      | _ => colorTexture s
      end
  | _ => colorTexture s
  end.

(** ** Counting on one socket *)

Definition is_VboUpdate (e : SocketEffect) : bool :=
  match e with VboUpdate _ => true | _ => false end.

Definition is_raise (e : SocketEffect) : bool :=
  match e with ReadyNext true => true | _ => false end.

Definition is_lower (e : SocketEffect) : bool :=
  match e with ReadyNext false => true | _ => false end.

(** How often a closure did something of a given kind. *)
Definition tally (p : SocketEffect -> bool) (c : Conn) : nat :=
  length (List.filter p (socket_log c)).

(** The [received_buffers] messages socket [id] has handled: [None]
    before its connection, then the number since. *)
Definition ack_step (id : string) (a : option nat) (ev : Event) : option nat :=
  match ev, a with
  | Connection id', None => if decide (id' = id) then Some 0 else None
  | ReceivedBuffers id' _, Some n => if decide (id' = id) then Some (S n) else a
  | _, _ => a
  end.

Definition acks (id : string) (evs : list Event) : option nat :=
  foldl (ack_step id) None evs.

(** The books of one closure: every lowering of the flag has its
    notification, sent or held back for the texture; the flag was raised
    before each lowering, and once more if it is up; nothing is sent
    while the texture is missing and nothing held back once it is
    there. *)
Definition conn_ok (tx : option Texture) (c : Conn) : Prop :=
  tally is_VboUpdate c + length (awaitingTexture c) = tally is_lower c
  /\ tally is_lower c + (if clientReady c then 1 else 0) <= tally is_raise c
  /\ match tx with
     | None => tally is_VboUpdate c = 0
     | Some _ => awaitingTexture c = []
     end.

Definition sockets_ok (s : Server) : Prop :=
  map_Forall (fun _ c => conn_ok (colorTexture s) c) (sockets s).

(** Every closure and every tracker goes by the one buffer list. *)
Definition config_ok (cfg : list string) (s : Server) : Prop :=
  renderConfig s = cfg
  /\ map_Forall (fun _ c => activeBuffers c = cfg) (sockets s)
  /\ map_Forall (fun _ tr => tr_expected tr = length cfg)
       (finishBufferTransfers s).

(** Where the texture came from, in a run that has seen the events
    [evs]: the file being deflated is the one [fs.readFile] returned, and
    the texture is built from it and from what [compress.deflate]
    returned. *)
Definition texture_origin (evs : list Event) (s : Server) : Prop :=
  (forall raw, img s = Deflating raw ->
     FileRead raw ∈ evs /\ Deflate raw ∈ effects s)
  /\ (forall tx, colorTexture s = Some tx ->
        img s = Done
        /\ exists raw c0,
             FileRead raw ∈ evs /\ Deflated c0 ∈ evs
             /\ Deflate raw ∈ effects s
             /\ tx = mkTexture c0 (length raw) 512 512).

(** ** Trackers and completions *)

(** The tracker state 3 installs for the closure [c] (lines 260-274). *)
Definition fresh_tracker (s : Server) (c : Conn) : Tracker :=
  mkTracker [] (length (activeBuffers c)) (subjects s).

(** [transferredBuffers.push(bufferName)] (line 266). *)
Definition pushed (n : option string) (tr : Tracker) : Tracker :=
  mkTracker (transferredBuffers tr ++ [n]) (tr_expected tr) (tr_subject tr).

(** What an event does to the entry of [finishBufferTransfers] under
    [id]. *)
Definition tracker_step (s : Server) (ev : Event) (id : string)
  : option Tracker :=
  let old := finishBufferTransfers s !! id in
  match ev with
  | ResetGraph i => if is_open i s then None else old
  | ReceivedBuffers i _ =>
      if decide (i = id)
      then match sockets s !! id with
           | Some c =>
               match phase c with
               | Throttle _ _ => Some (fresh_tracker s c)
               | _ => old
               end
           | None => old
           end
      else old
  | Fetched i _ =>
      if decide (i = id)
      then match sockets s !! id with
           | Some c =>
               match phase c with
               | Fetch _ =>
                   if clientReady c then Some (fresh_tracker s c) else old
               | _ => old
               end
           | None => old
           end
      else old
  | GetVbo _ n q => if decide (prop_key q = id) then pushed n <$> old else old
  | _ => old
  end.

(** What the handling of an event adds to the effect log. *)
Definition emits (s : Server) (ev : Event) : list Effect :=
  match ev with
  | GraphSettings i payload =>
      if is_open i s then [Proxy (animStep s) payload] else []
  | ResetGraph i => if is_open i s then [DriverCreate (sources s)] else []
  | FileRead raw =>
      match img s with Reading => [Deflate raw] | _ => [] end
  | Deflated c0 =>
      match img s with
      | Deflating _ =>
          flat_map (fun rid => [SetHeader rid; Send rid (Some c0)])
            (textureWaiters s)
      | _ => []
      end
  | GetTexture rid _ _ =>
      match colorTexture s with
      | Some tx => [SetHeader rid; Send rid (Some (buffer tx))]
      | None => []
      end
  | GetVbo rid n q =>
      [SetHeader rid; vbo_answer rid n q s]
      ++ match finishBufferTransfers s !! prop_key q with
         | None => [Uncaught rid]
         | Some tr =>
             if decide (length (transferredBuffers tr ++ [n])
                        = tr_expected tr)
             then [SendingAll (prop_key q) (tr_subject tr)]
             else []
         end
  | _ => []
  end.

(** The animations [driver.create()] has made, oldest first. *)
Definition created (l : list Effect) : list nat :=
  omap (fun e => match e with DriverCreate a => Some a | _ => None end) l.

(** The completion signals of socket [id]. *)
Definition is_signal_of (id : string) (e : Effect) : bool :=
  match e with SendingAll i _ => bool_decide (i = id) | _ => false end.

(** The buffer requests made under [id]. *)
Definition is_pull_of (id : string) (ev : Event) : bool :=
  match ev with
  | GetVbo _ _ q => bool_decide (prop_key q = id)
  | _ => false
  end.

Definition pulls_of (id : string) (evs : list Event) : nat :=
  length (List.filter (is_pull_of id) evs).

(** The requests the tracker under [id] has counted towards a completion
    it has not signalled yet. *)
Definition credit (id : string) (s : Server) : nat :=
  match finishBufferTransfers s !! id with
  | Some tr =>
      if decide (length (transferredBuffers tr) < tr_expected tr)
      then length (transferredBuffers tr)
      else 0
  | None => 0
  end.

Definition is_FetchData (e : SocketEffect) : bool :=
  match e with FetchData _ _ => true | _ => false end.

(** The fetches of a loop against the completion signals [sig] given
    under its id: a loop that has fetched is at most one fetch ahead of
    the signals, and not ahead at all while it waits for a tick. *)
Definition fetch_ok (sig : nat) (c : Conn) : Prop :=
  match phase c with
  | AwaitSnapshot _ => tally is_FetchData c = 0
  | AwaitTick _ _ => 1 <= tally is_FetchData c /\ tally is_FetchData c <= sig
  | _ => 1 <= tally is_FetchData c /\ tally is_FetchData c <= sig + 1
  end.

(** ** Basic facts about effects *)

Lemma count_app p (s s' : Server) l :
  effects s' = effects s ++ l ->
  count p s' = count p s + length (List.filter p l).
Proof. unfold count. intros ->. by rewrite List.filter_app, length_app. Qed.

Lemma count_effect p e s :
  count p (effect e s) = count p s + (if p e then 1 else 0).
Proof.
  rewrite (count_app p s (effect e s) [e]) by done.
  simpl. by destruct (p e).
Qed.

(** ** The transfer tracker *)

Lemma sendingAll_frame id subj s :
  finishBufferTransfers (sendingAllBuffers_onNext id subj s)
    = finishBufferTransfers s
  /\ effects (sendingAllBuffers_onNext id subj s)
    = effects s ++ [SendingAll id subj].
Proof.
  unfold sendingAllBuffers_onNext. simpl.
  repeat (case_match; simpl); done.
Qed.

Lemma call_tracker_pushes rid n id s tr :
  finishBufferTransfers s !! prop_key id = Some tr ->
  let pushed := transferredBuffers tr ++ [n] in
  let s' := call_tracker rid n id s in
  finishBufferTransfers s' !! prop_key id
    = Some (mkTracker pushed (tr_expected tr) (tr_subject tr))
  /\ effects s'
     = effects s ++ (if decide (length pushed = tr_expected tr)
                     then [SendingAll (prop_key id) (tr_subject tr)] else []).
Proof.
  intros Htr. unfold call_tracker. rewrite Htr. unfold finishBufferTransfer.
  simpl. case_decide.
  - match goal with |- context [sendingAllBuffers_onNext ?i ?j ?t] =>
      destruct (sendingAll_frame i j t) as [-> ->] end.
    simpl. by rewrite lookup_insert_eq.
  - simpl. by rewrite lookup_insert_eq, app_nil_r.
Qed.

Lemma get_vbo_tracker rid n id s tr :
  finishBufferTransfers s !! prop_key id = Some tr ->
  let pushed := transferredBuffers tr ++ [n] in
  let s' := get_vbo rid n id s in
  finishBufferTransfers s' !! prop_key id
    = Some (mkTracker pushed (tr_expected tr) (tr_subject tr))
  /\ count is_SendingAll s'
     = count is_SendingAll s
       + (if decide (length pushed = tr_expected tr) then 1 else 0).
Proof.
  intros Htr. unfold get_vbo, try_send_vbo. simpl.
  destruct (lastCompressedVbos s !! prop_key id); simpl;
    match goal with |- context [call_tracker _ _ _ ?t] =>
      destruct (call_tracker_pushes rid n id t tr Htr) as [-> He] end;
    (split; [done|]); rewrite (count_app _ _ _ _ He), !count_effect; simpl;
    case_decide; simpl; lia.
Qed.

(** Pulls are counted, not names: the signal goes out with the pull that
    brings the array to the expected length. *)
Lemma pulls_counted id (f : nat -> nat) names : forall s tr,
  finishBufferTransfers s !! id = Some tr ->
  let pre := length (transferredBuffers tr) in
  let s' := run s (imap (fun i n => GetVbo (f i) n (Some id)) names) in
  (transferredBuffers <$> finishBufferTransfers s' !! id)
    = Some (transferredBuffers tr ++ names)
  /\ (tr_expected <$> finishBufferTransfers s' !! id) = Some (tr_expected tr)
  /\ count is_SendingAll s'
     = count is_SendingAll s
       + (if decide (pre < tr_expected tr <= pre + length names)
          then 1 else 0).
Proof.
  revert f. induction names as [|n names IH]; intros f s tr Htr; simpl.
  - rewrite Htr, app_nil_r. simpl. repeat split; try done.
    case_decide; lia.
  - destruct (get_vbo_tracker (f 0) n (Some id) s tr Htr) as [Hfb Hc].
    simpl in Hfb.
    destruct (IH (f ∘ S) _ _ Hfb) as (Hn & Hk & Hcount).
    unfold run, compose in *. simpl in *.
    rewrite Hn, Hk, Hcount, Hc, <- app_assoc, !length_app. simpl.
    repeat split; try done.
    repeat case_decide; lia.
Qed.

(** C1 (as amended).  A tracker that notification has just installed
    (empty array) and that expects k >= 1 buffers signals completion once:
    after n pulls the signal has gone out exactly when n >= k, so it goes
    out with the k-th pull.  Every pull counts, whatever its name: a
    repeated name advances the tracker like a new one. *)
Theorem tracker_fires_at_kth_pull id s tr (names : list (option string)) :
  finishBufferTransfers s !! id = Some tr ->
  transferredBuffers tr = [] ->
  1 <= tr_expected tr ->
  let s' := run s (pull_requests id names) in
  (transferredBuffers <$> finishBufferTransfers s' !! id) = Some names
  /\ count is_SendingAll s'
     = count is_SendingAll s
       + (if decide (tr_expected tr <= length names) then 1 else 0).
Proof.
  intros Htr Hnil Hk.
  destruct (pulls_counted id (fun i => i) names s tr Htr) as (Hn & _ & Hc).
  rewrite Hnil in *. simpl in *. split; [done|].
  unfold pull_requests. rewrite Hc. repeat case_decide; lia.
Qed.

Lemma tracker_fires_at_kth_pull_witness :
  let s := run (boot ["a"; "b"]) first_cycle in
  let names := [Some "b"; Some "b"; Some "a"] in
  finishBufferTransfers s !! "X" = Some (mkTracker [] 2 0)
  /\ count is_SendingAll (run s (pull_requests "X" names))
     = count is_SendingAll s + 1.
Proof.
  assert (H : finishBufferTransfers (run (boot ["a"; "b"]) first_cycle) !! "X"
              = Some (mkTracker [] 2 0)) by (vm_compute; reflexivity).
  split; [exact H|].
  exact (proj2 (tracker_fires_at_kth_pull "X" _ _
                  [Some "b"; Some "b"; Some "a"] H eq_refl
                  (le_S 1 1 (le_n 1)))).
Defined.

(** C1 (as stated) fails: with two buffers expected, pulling "a" twice
    completes the cycle although one distinct name has been pulled. *)
Lemma duplicate_pull_completes_cycle :
  let s := run (boot ["a"; "b"])
             (first_cycle ++ pull_requests "X" [Some "a"; Some "a"]) in
  (tr_expected <$> finishBufferTransfers s !! "X") = Some 2
  /\ (distinct_pulled <$> finishBufferTransfers s !! "X") = Some [Some "a"]
  /\ count is_SendingAll s = 1
  /\ phase_of "X" s = Some (AwaitTick 5 0).
Proof. vm_compute. done. Qed.

(** ** The loop, one closure at a time *)

Lemma notify_self id g vbos s c :
  sockets s !! id = Some c ->
  sockets (notify id g vbos s) !! id
    = Some (mkConn (activeBuffers c) (clientReady c)
              (AwaitDelivery g (subjects s))
              (awaitingTexture c
                 ++ match colorTexture s with Some _ => [] | None => [vbos] end)
              (socket_log c ++ notification s vbos)).
Proof.
  intros Hc. unfold notify, notification, on_socket. rewrite Hc. simpl.
  destruct (colorTexture s); simpl;
    rewrite !lookup_alter_eq, Hc; simpl; by rewrite ?app_nil_r.
Qed.

Lemma notify_other id id' g vbos s :
  id <> id' -> sockets (notify id' g vbos s) !! id = sockets s !! id.
Proof.
  intros Hne. unfold notify, on_socket.
  destruct (sockets s !! id'); [|done]. simpl.
  destruct (colorTexture s); simpl; by rewrite !lookup_alter_ne.
Qed.

Lemma proceed_self id g vbos s c :
  sockets s !! id = Some c ->
  sockets (proceed id g vbos s) !! id
    = Some (mkConn (activeBuffers c) false (AwaitDelivery g (subjects s))
              (awaitingTexture c
                 ++ match colorTexture s with Some _ => [] | None => [vbos] end)
              (socket_log c ++ ReadyNext false :: notification s vbos)).
Proof.
  intros Hc. unfold proceed.
  rewrite (notify_self id g vbos _ (ready_store false c)).
  - simpl. unfold notification. simpl. by rewrite <- app_assoc.
  - unfold on_socket. simpl. by rewrite lookup_alter_eq, Hc.
Qed.

Lemma proceed_other id id' g vbos s :
  id <> id' -> sockets (proceed id' g vbos s) !! id = sockets s !! id.
Proof.
  intros Hne. unfold proceed. rewrite notify_other by done.
  unfold on_socket. simpl. by rewrite lookup_alter_ne.
Qed.

Lemma throttle_other id id' g vbos s :
  id <> id' -> sockets (throttle id' g vbos s) !! id = sockets s !! id.
Proof.
  intros Hne. unfold throttle. destruct (sockets s !! id') as [c|]; [|done].
  destruct (clientReady c); [by apply proceed_other|].
  unfold on_socket. simpl. by rewrite lookup_alter_ne.
Qed.

Lemma fetched_other id id' vbos s :
  id <> id' -> sockets (fetched id' vbos s) !! id = sockets s !! id.
Proof.
  intros Hne. unfold fetched. destruct (sockets s !! id') as [c|]; [|done].
  destruct (phase c); try done. by rewrite throttle_other.
Qed.

Lemma clientReady_onNext_other id id' v s :
  id <> id' -> sockets (clientReady_onNext id' v s) !! id = sockets s !! id.
Proof.
  intros Hne. unfold clientReady_onNext.
  assert (Hst : sockets (on_socket id' (ready_store v) s) !! id
                = sockets s !! id).
  { unfold on_socket. simpl. by rewrite lookup_alter_ne. }
  destruct (sockets (on_socket id' (ready_store v) s) !! id') as [c|];
    [|done].
  destruct (phase c); try done. destruct v; [|done].
  by rewrite proceed_other.
Qed.

Lemma sendingAll_other id id' subj s :
  id <> id' ->
  sockets (sendingAllBuffers_onNext id' subj s) !! id = sockets s !! id.
Proof.
  intros Hne. unfold sendingAllBuffers_onNext, on_socket. simpl.
  destruct (sockets s !! id') as [c|]; [|done].
  destruct (phase c); try done. case_decide; [|done].
  simpl. by rewrite lookup_alter_ne.
Qed.

(** The signal moves a loop only out of state 3. *)
Lemma sendingAll_not_waiting id subj s c :
  sockets s !! id = Some c ->
  (forall g n, phase c <> AwaitDelivery g n) ->
  sockets (sendingAllBuffers_onNext id subj s) = sockets s.
Proof.
  intros Hc Hph. unfold sendingAllBuffers_onNext. simpl. rewrite Hc.
  destruct (phase c) eqn:E; try done. by destruct (Hph g subj0).
Qed.

Lemma get_vbo_sockets rid n q_id s :
  sockets (get_vbo rid n q_id s) = sockets s
  \/ exists tr, finishBufferTransfers s !! prop_key q_id = Some tr
       /\ sockets (get_vbo rid n q_id s)
          = sockets (sendingAllBuffers_onNext (prop_key q_id) (tr_subject tr) s).
Proof.
  unfold get_vbo, try_send_vbo, call_tracker, finishBufferTransfer. simpl.
  destruct (lastCompressedVbos s !! prop_key q_id); simpl;
    (destruct (finishBufferTransfers s !! prop_key q_id) as [tr|] eqn:E;
     [|by left]);
    (case_decide; [|by left]); right; exists tr; (split; [done|]);
    unfold sendingAllBuffers_onNext, on_socket; simpl;
    repeat (case_match; simpl; try done).
Qed.

Lemma foldl_send_texture_frame data (rids : list nat) : forall s,
  let s' := foldl (fun s rid => send_texture data rid s) s rids in
  sockets s' = sockets s /\ colorTexture s' = colorTexture s
  /\ img s' = img s /\ textureWaiters s' = textureWaiters s
  /\ broadcasters s' = broadcasters s /\ caches s' = caches s
  /\ ticksMulti s' = ticksMulti s /\ graph s' = graph s
  /\ renderConfig s' = renderConfig s
  /\ effects s'
     = effects s
       ++ flat_map (fun rid => [SetHeader rid; Send rid (Some data)]) rids.
Proof.
  induction rids as [|rid rids IH]; intros s; simpl.
  - by rewrite app_nil_r.
  - destruct (IH (send_texture data rid s))
      as (-> & -> & -> & -> & -> & -> & -> & -> & -> & ->).
    simpl. by rewrite <- !app_assoc.
Qed.

Lemma flush_fold_frame tx (l : list Vbos) : forall c,
  let c' := foldl (fun c vbos => socket_effect (VboUpdate (lengths vbos tx)) c)
              c l in
  phase c' = phase c /\ clientReady c' = clientReady c
  /\ activeBuffers c' = activeBuffers c
  /\ awaitingTexture c' = awaitingTexture c
  /\ socket_log c'
     = socket_log c ++ map (fun vbos => VboUpdate (lengths vbos tx)) l.
Proof.
  induction l as [|v l IH]; intros c; simpl.
  - by rewrite app_nil_r.
  - destruct (IH (socket_effect (VboUpdate (lengths v tx)) c))
      as (-> & -> & -> & -> & ->).
    simpl. by rewrite <- app_assoc.
Qed.

Lemma flush_awaiting_frame tx c :
  phase (flush_awaiting tx c) = phase c
  /\ clientReady (flush_awaiting tx c) = clientReady c
  /\ activeBuffers (flush_awaiting tx c) = activeBuffers c
  /\ awaitingTexture (flush_awaiting tx c) = []
  /\ socket_log (flush_awaiting tx c)
     = socket_log c
       ++ map (fun vbos => VboUpdate (lengths vbos tx)) (awaitingTexture c).
Proof.
  unfold flush_awaiting. simpl.
  destruct (flush_fold_frame tx (awaitingTexture c) c) as (? & ? & ? & ? & ?).
  done.
Qed.

Lemma colorTexture_onNext_sockets tx s :
  sockets (colorTexture_onNext tx s) = flush_awaiting tx <$> sockets s.
Proof.
  unfold colorTexture_onNext. simpl.
  by destruct (foldl_send_texture_frame (buffer tx) (textureWaiters s)
                 (set_colorTexture (Some tx) s)) as (-> & _).
Qed.

Lemma resetState_sockets s : sockets (resetState s) = sockets s.
Proof. done. Qed.

(** A loop parked in state 2 stays there, flag down, whatever happens,
    until [received_buffers] arrives on its own socket. *)
Lemma parked_step id g vbos s ev :
  parked id g vbos s -> is_ack id ev = false -> parked id g vbos (step s ev).
Proof.
  intros (c & Hc & Hph & Hrd) Hev. unfold parked.
  destruct ev as [id'|id'|id' p|id'|id' t|b g'|id' v|raw|c0|rid n q|rid t q];
    simpl in *.
  - unfold connection. destruct (sockets s !! id') eqn:E; [by eauto|].
    simpl. rewrite lookup_insert_ne by congruence. eauto.
  - destruct (is_open id' s); simpl; eauto.
  - destruct (is_open id' s); simpl; eauto.
  - destruct (is_open id' s); [|by eauto].
    unfold reset_graph, on_socket. simpl.
    destruct (decide (id' = id)) as [->|Hne].
    + rewrite lookup_alter_eq, Hc. simpl. eauto.
    + rewrite lookup_alter_ne by done. eauto.
  - apply bool_decide_eq_false in Hev. unfold received_buffers.
    rewrite clientReady_onNext_other by done. eauto.
  - unfold tick. destruct (broadcasters s !! b) as [bc|]; [|by eauto].
    destruct (bc_connected bc); [|by eauto].
    destruct (bc_first bc); simpl; rewrite lookup_fmap, Hc; simpl;
      (eexists; split; [done|]); unfold conn_tick; rewrite Hph; done.
  - destruct (decide (id' = id)) as [->|Hne].
    + unfold fetched. rewrite Hc, Hph. eauto.
    + rewrite fetched_other by done. eauto.
  - unfold file_read. destruct (img s); simpl; eauto.
  - unfold deflated.
    destruct (img s) as [| |raw|]; [by eauto|by eauto| |by eauto].
    rewrite colorTexture_onNext_sockets. simpl. rewrite lookup_fmap, Hc.
    simpl. eexists. split; [done|].
    destruct (flush_awaiting_frame
                (mkTexture c0 (length raw) 512 512) c) as (-> & -> & _).
    done.
  - destruct (get_vbo_sockets rid n q s) as [->|(tr & _ & ->)]; [by eauto|].
    destruct (decide (prop_key q = id)) as [Heq|Hne].
    + rewrite Heq.
      rewrite (sendingAll_not_waiting id _ s c Hc); [by eauto|].
      intros ? ?. by rewrite Hph.
    + rewrite sendingAll_other by done. eauto.
  - unfold get_texture, send_texture. destruct (colorTexture s); simpl; eauto.
Qed.

Lemma parked_run id g vbos evs : forall s,
  parked id g vbos s -> forallb (fun ev => negb (is_ack id ev)) evs = true ->
  parked id g vbos (run s evs).
Proof.
  induction evs as [|ev evs IH]; intros s Hp Hall; simpl in *; [done|].
  apply andb_true_iff in Hall as [Hev Hall]. apply negb_true_iff in Hev.
  apply IH; [|done]. by apply parked_step.
Qed.

Lemma received_buffers_parked id g vbos time s c :
  sockets s !! id = Some c -> phase c = Throttle g vbos ->
  sockets (received_buffers id time s) !! id
    = Some (mkConn (activeBuffers c) false (AwaitDelivery g (subjects s))
              (awaitingTexture c
                 ++ match colorTexture s with Some _ => [] | None => [vbos] end)
              (socket_log c
                 ++ ReadyNext true :: ReadyNext false :: notification s vbos)).
Proof.
  intros Hc Hph. unfold received_buffers, clientReady_onNext.
  assert (Hst : sockets (on_socket id (ready_store true) s) !! id
                = Some (ready_store true c)).
  { unfold on_socket. simpl. by rewrite lookup_alter_eq, Hc. }
  rewrite Hst. simpl. rewrite Hph.
  rewrite (proceed_self id g vbos _ _ Hst). simpl.
  unfold notification. simpl. by rewrite <- app_assoc.
Qed.

(** C2.  When the loop of a connection enters the Throttle state (its
    fetch has come back), it goes on at once if the readiness flag is
    up.  Otherwise it stays in that state through any events that are not
    a [received_buffers] message on its own socket, and goes on with the
    first such message.  Either way the flag is taken down before the
    notification of the cycle goes out, and is down afterwards. *)
Theorem throttle_gate id s c g vbos evs time :
  sockets s !! id = Some c ->
  phase c = Fetch g ->
  forallb (fun ev => negb (is_ack id ev)) evs = true ->
  let s1 := step s (Fetched id vbos) in
  if clientReady c then
    phase_of id s1 = Some (AwaitDelivery g (subjects s))
    /\ ready_of id s1 = Some false
    /\ log_of id s1 = socket_log c ++ ReadyNext false :: notification s vbos
  else
    let s2 := run s1 evs in
    let s3 := step s2 (ReceivedBuffers id time) in
    phase_of id s1 = Some (Throttle g vbos)
    /\ log_of id s1 = socket_log c
    /\ phase_of id s2 = Some (Throttle g vbos)
    /\ ready_of id s2 = Some false
    /\ phase_of id s3 = Some (AwaitDelivery g (subjects s2))
    /\ ready_of id s3 = Some false
    /\ log_of id s3
       = log_of id s2
         ++ ReadyNext true :: ReadyNext false :: notification s2 vbos.
Proof.
  intros Hc Hph Hevs. simpl. unfold fetched. rewrite Hc, Hph.
  unfold throttle. simpl. rewrite Hc.
  destruct (clientReady c) eqn:Hrd.
  - unfold phase_of, ready_of, log_of.
    rewrite (proceed_self id g vbos _ c) by done. done.
  - set (s1 := on_socket id (set_phase (Throttle g vbos))
                 (set_lastCompressedVbos
                    (<[id:=compressed vbos]> (lastCompressedVbos s)) s)).
    assert (Hs1 : sockets s1 !! id = Some (set_phase (Throttle g vbos) c)).
    { unfold s1, on_socket. simpl. by rewrite lookup_alter_eq, Hc. }
    assert (Hp1 : parked id g vbos s1) by (eexists; eauto).
    destruct (parked_run id g vbos evs s1 Hp1 Hevs) as (c2 & Hc2 & Hph2 & Hrd2).
    unfold phase_of, ready_of, log_of.
    rewrite Hs1, Hc2, (received_buffers_parked id g vbos time _ c2 Hc2 Hph2).
    simpl. rewrite Hph2, Hrd2. done.
Qed.

Lemma throttle_gate_witness :
  let evs := [Tick 0 7; GetTexture 9 None None; ReceivedBuffers "Y" 3] in
  let s2 := run (step second_fetch (Fetched "X" sample_vbos)) evs in
  ready_of "X" second_fetch = Some false
  /\ phase_of "X" second_fetch = Some (Fetch 5)
  /\ phase_of "X" s2 = Some (Throttle 5 sample_vbos)
  /\ phase_of "X" (step s2 (ReceivedBuffers "X" 40))
     = Some (AwaitDelivery 5 (subjects s2)).
Proof.
  assert (Hc : exists c, sockets second_fetch !! "X" = Some c
                         /\ phase c = Fetch 5 /\ clientReady c = false).
  { vm_compute. eexists. repeat split. }
  destruct Hc as (c & Hc & Hph & Hrd).
  assert (H := throttle_gate "X" second_fetch c 5 sample_vbos
                 [Tick 0 7; GetTexture 9 None None; ReceivedBuffers "Y" 3]
                 40 Hc Hph eq_refl).
  cbv zeta in H. rewrite Hrd in H.
  destruct H as (_ & _ & H2 & _ & H3 & _).
  cbv zeta. unfold ready_of at 1, phase_of at 1. rewrite Hc.
  cbn [fmap option_fmap option_map]. rewrite Hph, Hrd.
  split; [reflexivity|]. split; [reflexivity|].
  split; [exact H2|exact H3].
Defined.

(** ** State 4: the next tick *)

(** C3 (as amended).  When the broadcaster a loop waits on in state 4
    passes on a tick, the loop re-enters Fetch with the snapshot the
    finished cycle was started with.  The snapshot the tick carries is
    not handed to the fetch; the tick only releases the loop. *)
Theorem next_tick_restarts_with_own_snapshot id s c g b bc (g' : Snapshot) :
  sockets s !! id = Some c ->
  phase c = AwaitTick g b ->
  broadcasters s !! b = Some bc ->
  bc_connected bc = true ->
  let s' := step s (Tick b g') in
  phase_of id s' = Some (Fetch g)
  /\ log_of id s' = socket_log c ++ [FetchData g (activeBuffers c)]
  /\ (bc_emitted <$> broadcasters s' !! b) = Some (bc_emitted bc ++ [g']).
Proof.
  intros Hc Hph Hb Hco. simpl. unfold tick, phase_of, log_of.
  rewrite Hb, Hco.
  assert (Hlt : b < length (broadcasters s)) by (by eapply lookup_lt_Some).
  destruct (bc_first bc); simpl;
    rewrite lookup_fmap, Hc, list_lookup_insert_eq by done; simpl;
    unfold conn_tick; rewrite Hph; case_decide; done.
Qed.

Lemma next_tick_restarts_with_own_snapshot_witness :
  let s := run (boot ["a"; "b"])
             (first_cycle ++ pull_requests "X" [Some "a"; Some "b"]) in
  phase_of "X" s = Some (AwaitTick 5 0)
  /\ phase_of "X" (step s (Tick 0 6)) = Some (Fetch 5).
Proof.
  cbv zeta.
  assert (Hc : exists c bc,
    sockets (run (boot ["a"; "b"])
               (first_cycle ++ pull_requests "X" [Some "a"; Some "b"])) !! "X"
      = Some c
    /\ phase c = AwaitTick 5 0
    /\ broadcasters (run (boot ["a"; "b"])
               (first_cycle ++ pull_requests "X" [Some "a"; Some "b"])) !! 0
       = Some bc
    /\ bc_connected bc = true).
  { vm_compute. do 2 eexists. repeat split. }
  destruct Hc as (c & bc & Hc & Hph & Hb & Hco).
  split.
  - unfold phase_of. rewrite Hc. cbn [fmap option_fmap option_map].
    by rewrite Hph.
  - exact (proj1 (next_tick_restarts_with_own_snapshot "X" _ c 5 0 bc 6
                    Hc Hph Hb Hco)).
Defined.

(** C3 (as stated) fails: X ran its first cycle on snapshot 5; the tick
    that releases it carries snapshot 6, and the fetch of the next cycle
    is issued for 5 again. *)
Lemma next_tick_value_dropped :
  let s := run (boot ["a"; "b"])
             (first_cycle ++ pull_requests "X" [Some "a"; Some "b"]) in
  let s' := step s (Tick 0 6) in
  phase_of "X" s = Some (AwaitTick 5 0)
  /\ phase_of "X" s' = Some (Fetch 5)
  /\ phase_of "X" s' <> Some (Fetch 6)
  /\ last (log_of "X" s') = Some (FetchData 5 ["a"; "b"]).
Proof. vm_compute. repeat split; try done. Qed.

(** ** Well-formedness is invariant *)

Lemma notify_globals id g vbos s : globals (notify id g vbos s) = globals s.
Proof.
  unfold notify, on_socket, globals. destruct (sockets s !! id); [|done].
  simpl. by destruct (colorTexture s).
Qed.

Lemma proceed_globals id g vbos s : globals (proceed id g vbos s) = globals s.
Proof. unfold proceed. by rewrite notify_globals. Qed.

Lemma throttle_globals id g vbos s : globals (throttle id g vbos s) = globals s.
Proof.
  unfold throttle. destruct (sockets s !! id) as [c|]; [|done].
  destruct (clientReady c); [by rewrite proceed_globals|done].
Qed.

Lemma fetched_globals id vbos s : globals (fetched id vbos s) = globals s.
Proof.
  unfold fetched. destruct (sockets s !! id) as [c|]; [|done].
  destruct (phase c); try done. by rewrite throttle_globals.
Qed.

Lemma clientReady_onNext_globals id v s :
  globals (clientReady_onNext id v s) = globals s.
Proof.
  unfold clientReady_onNext.
  destruct (sockets (on_socket id (ready_store v) s) !! id) as [c|]; [|done].
  destruct (phase c); try done. destruct v; [|done].
  by rewrite proceed_globals.
Qed.

Lemma sendingAll_globals id subj s :
  globals (sendingAllBuffers_onNext id subj s) = globals s.
Proof.
  unfold sendingAllBuffers_onNext. simpl.
  destruct (sockets s !! id) as [c|]; [|done].
  destruct (phase c); try done. by case_decide.
Qed.

Lemma get_vbo_globals rid n q s : globals (get_vbo rid n q s) = globals s.
Proof.
  unfold get_vbo, try_send_vbo, call_tracker, finishBufferTransfer. simpl.
  destruct (lastCompressedVbos s !! prop_key q); simpl;
    (destruct (finishBufferTransfers s !! prop_key q); [|done]);
    (case_decide; [|done]); by rewrite sendingAll_globals.
Qed.

Lemma colorTexture_onNext_globals tx s :
  globals (colorTexture_onNext tx s) = globals s.
Proof.
  unfold colorTexture_onNext, globals. simpl.
  by destruct (foldl_send_texture_frame (buffer tx) (textureWaiters s)
                 (set_colorTexture (Some tx) s))
    as (_ & _ & _ & _ & -> & -> & -> & -> & _).
Qed.

(** Only a tick and a reset touch the session objects. *)
Lemma step_globals s ev :
  match ev with
  | Tick _ _ | ResetGraph _ => True
  | _ => globals (step s ev) = globals s
  end.
Proof.
  destruct ev; simpl; try done.
  - unfold connection. by destruct (sockets s !! id).
  - by destruct (is_open id s).
  - by destruct (is_open id s).
  - apply clientReady_onNext_globals.
  - apply fetched_globals.
  - unfold file_read. by destruct (img s).
  - unfold deflated. destruct (img s); try done.
    by rewrite colorTexture_onNext_globals.
  - apply get_vbo_globals.
  - unfold get_texture. by destruct (colorTexture s).
Qed.

Lemma epoch_part_ext s s' :
  globals s' = globals s ->
  length (broadcasters s) = length (caches s)
  /\ (forall j bc, broadcasters s !! j = Some bc -> epoch_ok s j bc) ->
  length (broadcasters s') = length (caches s')
  /\ (forall j bc, broadcasters s' !! j = Some bc -> epoch_ok s' j bc).
Proof.
  unfold globals, epoch_ok. intros [= -> -> _ _]. done.
Qed.

(** A callback that changes the closure of one socket only. *)
Lemma awaits_bounded_local s s' id' :
  broadcasters s' = broadcasters s ->
  (forall id, id <> id' -> sockets s' !! id = sockets s !! id) ->
  (forall c' g b, sockets s' !! id' = Some c' -> phase c' = AwaitTick g b ->
                  b < length (broadcasters s)) ->
  awaits_bounded s -> awaits_bounded s'.
Proof.
  intros Hb Hother Hself Hs id c g b Hc Hph. rewrite Hb.
  destruct (decide (id = id')) as [->|Hne]; [by eauto|].
  rewrite Hother in Hc by done. by eauto.
Qed.

Lemma awaits_bounded_same s s' :
  broadcasters s' = broadcasters s -> sockets s' = sockets s ->
  awaits_bounded s -> awaits_bounded s'.
Proof. unfold awaits_bounded. intros -> ->. done. Qed.

Lemma resetState_unfold s :
  let s' := resetState s in
  lastCompressedVbos s' = ∅ /\ finishBufferTransfers s' = ∅
  /\ animStep s' = sources s /\ sources s' = S (sources s)
  /\ ticksMulti s' = length (broadcasters s) /\ graph s' = length (caches s)
  /\ broadcasters s'
     = broadcasters s
       ++ [mkBroadcaster (sources s) true (Some (length (caches s))) []]
  /\ caches s' = caches s ++ [None]
  /\ sockets s' = sockets s
  /\ effects s' = effects s ++ [DriverCreate (sources s)].
Proof.
  unfold resetState, subscribe_first, new_cache, connect, publish,
    driver_create, clear_maps. simpl.
  repeat split; try done.
  rewrite <- (Nat.add_0_r (length (broadcasters s))).
  rewrite !alter_app_r. done.
Qed.

Lemma wf_resetState s : epochs_ok s -> wf (resetState s).
Proof.
  intros (Hlen & Hep & Haw).
  destruct (resetState_unfold s)
    as (_ & _ & _ & _ & Ht & Hg & Hb & Hc & Hs & _).
  unfold wf, epochs_ok, epoch_ok, awaits_bounded.
  rewrite Ht, Hg, Hb, Hc, Hs, !length_app. simpl.
  repeat split; try lia.
  - apply lookup_app_Some in H as [H|[Hge H]].
    + by apply Hep in H as (? & ? & ?).
    + destruct (j - length (broadcasters s)) eqn:E; simpl in H; [|done].
      by injection H as <-.
  - apply lookup_app_Some in H as [H|[Hge H]].
    + apply Hep in H as (? & Hc' & ?). by apply lookup_app_l_Some.
    + destruct (j - length (broadcasters s)) eqn:E; simpl in H; [|done].
      injection H as <-. simpl.
      assert (j = length (caches s)) as -> by lia.
      by rewrite list_lookup_middle.
  - apply lookup_app_Some in H as [H|[Hge H]].
    + by apply Hep in H as (? & ? & ?).
    + destruct (j - length (broadcasters s)) eqn:E; simpl in H; [|done].
      injection H as <-. simpl. f_equal. lia.
  - intros id c g b H1 H2. specialize (Haw id c g b H1 H2). lia.
Qed.

Lemma blank_epochs_ok cfg : epochs_ok (blank cfg).
Proof.
  unfold epochs_ok, awaits_bounded. simpl. repeat split; try done.
Qed.

Lemma wf_boot cfg : wf (boot cfg).
Proof.
  unfold boot, subscribe_img.
  pose proof (wf_resetState _ (blank_epochs_ok cfg)) as H.
  destruct (img (resetState (blank cfg))); done.
Qed.

Lemma conn_tick_phase b first g c g0 b0 :
  phase (conn_tick b first g c) = AwaitTick g0 b0 -> phase c = AwaitTick g0 b0.
Proof.
  unfold conn_tick.
  destruct (phase c) eqn:E; try case_decide; simpl; rewrite ?E; done.
Qed.

Lemma wf_tick b g s : wf s -> wf (tick b g s).
Proof.
  intros ((Hlen & Hep & Haw) & Ht & Hg). unfold tick.
  destruct (broadcasters s !! b) as [bc|] eqn:Hb; [|done].
  destruct (bc_connected bc) eqn:Hco; [|done].
  destruct (Hep b bc Hb) as (_ & Hcache & Hfirst).
  assert (Hlt : b < length (broadcasters s)) by (by eapply lookup_lt_Some).
  destruct (bc_emitted bc) as [|x l] eqn:Hem; rewrite Hfirst.
  - (* first tick of the epoch: the cache takes it *)
    split; [|by simpl; rewrite length_insert].
    split; [by simpl; rewrite !length_insert|].
    split.
    + intros j bc' Hj. simpl in *. unfold epoch_ok. simpl.
      destruct (decide (j = b)) as [->|Hne].
      * rewrite list_lookup_insert_eq in Hj by done. injection Hj as <-.
        unfold emitted. simpl. rewrite Hem. simpl.
        rewrite list_lookup_insert_eq by lia. done.
      * rewrite list_lookup_insert_ne in Hj by done.
        rewrite list_lookup_insert_ne by done. by apply Hep.
    + intros id c g0 b0 Hc Hph. simpl in *. rewrite length_insert.
      rewrite lookup_fmap in Hc.
      destruct (sockets s !! id) as [c0|] eqn:E; [|done].
      injection Hc as <-. apply conn_tick_phase in Hph. by eauto.
  - (* later ticks pass the cache by *)
    split; [|done].
    split; [by simpl; rewrite !length_insert|].
    split.
    + intros j bc' Hj. simpl in *. unfold epoch_ok. simpl.
      destruct (decide (j = b)) as [->|Hne].
      * rewrite list_lookup_insert_eq in Hj by done. injection Hj as <-.
        unfold emitted. simpl. rewrite Hem, Hcache. done.
      * rewrite list_lookup_insert_ne in Hj by done. by apply Hep.
    + intros id c g0 b0 Hc Hph. simpl in *. rewrite length_insert.
      rewrite lookup_fmap in Hc.
      destruct (sockets s !! id) as [c0|] eqn:E; [|done].
      injection Hc as <-. apply conn_tick_phase in Hph. by eauto.
Qed.

Lemma clientReady_onNext_no_await id v s c' g b :
  sockets (clientReady_onNext id v s) !! id = Some c' ->
  phase c' = AwaitTick g b ->
  exists c, sockets s !! id = Some c /\ phase c = AwaitTick g b.
Proof.
  unfold clientReady_onNext.
  assert (Hst : sockets (on_socket id (ready_store v) s) !! id
                = ready_store v <$> sockets s !! id).
  { unfold on_socket. simpl. by rewrite lookup_alter_eq. }
  destruct (sockets s !! id) as [c|] eqn:Hc; rewrite Hst;
    cbn [fmap option_fmap option_map]; [|by rewrite Hst].
  change (phase (ready_store v c)) with (phase c).
  destruct (phase c) eqn:Hph;
    try (rewrite Hst; intros [= <-] H; simpl in H; by eauto).
  destruct v; [|rewrite Hst; intros [= <-] H; simpl in H; by eauto].
  rewrite (proceed_self id g0 vbos _ _ Hst). by intros [= <-] H.
Qed.

Lemma fetched_no_await id vbos s c' g b :
  sockets (fetched id vbos s) !! id = Some c' ->
  phase c' = AwaitTick g b ->
  exists c, sockets s !! id = Some c /\ phase c = AwaitTick g b.
Proof.
  unfold fetched. destruct (sockets s !! id) as [c|] eqn:Hc; [|by rewrite Hc].
  destruct (phase c) eqn:Hph; try (rewrite Hc; intros [= <-] H; by eauto).
  unfold throttle. simpl. rewrite Hc. destruct (clientReady c).
  - rewrite (proceed_self id g0 vbos _ c) by done. by intros [= <-] H.
  - unfold on_socket. simpl. rewrite lookup_alter_eq, Hc. simpl.
    by intros [= <-] H.
Qed.

Lemma sendingAll_await id subj s c' g b :
  sockets (sendingAllBuffers_onNext id subj s) !! id = Some c' ->
  phase c' = AwaitTick g b ->
  b = ticksMulti s
  \/ exists c, sockets s !! id = Some c /\ phase c = AwaitTick g b.
Proof.
  unfold sendingAllBuffers_onNext. simpl.
  destruct (sockets s !! id) as [c|] eqn:Hc; [|simpl; by rewrite ?Hc].
  destruct (phase c) eqn:Hph;
    try (simpl; rewrite ?Hc; intros [= <-] H; by eauto).
  case_decide; [|simpl; rewrite ?Hc; intros [= <-] H'; by eauto].
  unfold on_socket. simpl. rewrite lookup_alter_eq, Hc. simpl.
  intros [= <-] [= <- <-]. by left.
Qed.

Lemma awaits_bounded_step s ev :
  wf s -> globals (step s ev) = globals s -> awaits_bounded (step s ev).
Proof.
  intros ((Hlen & Hep & Haw) & Ht & Hg) Hgl.
  assert (Hb : broadcasters (step s ev) = broadcasters s)
    by (by injection Hgl).
  clear Hgl.
  destruct ev as [id'|id'|id' p|id'|id' t|b g'|id' v|raw|c0|rid n q|rid t q];
    simpl in *.
  - unfold connection in *. destruct (sockets s !! id') eqn:E; [done|].
    intros id c g b Hc Hph. simpl in *.
    destruct (decide (id = id')) as [->|Hne].
    + rewrite lookup_insert_eq in Hc. injection Hc as <-.
      destruct (caches s !! graph s) as [[?|]|]; done.
    + rewrite lookup_insert_ne in Hc by done. by eauto.
  - destruct (is_open id' s); done.
  - destruct (is_open id' s); done.
  - destruct (is_open id' s); [|done].
    intros id c g b Hc Hph. rewrite Hb. unfold reset_graph, on_socket in Hc.
    simpl in Hc. rewrite lookup_alter in Hc. case_decide.
    + subst id'. destruct (sockets s !! id) as [c1|] eqn:E; [|done].
      injection Hc as <-. by eauto.
    + by eauto.
  - apply (awaits_bounded_local s _ id'); try done.
    + intros id Hne. by apply clientReady_onNext_other.
    + intros c' g b Hc Hph.
      destruct (clientReady_onNext_no_await _ _ _ _ _ _ Hc Hph)
        as (c & ? & ?).
      by eauto.
  - unfold tick in *. destruct (broadcasters s !! b) as [bc|]; [|done].
    destruct (bc_connected bc); [|done].
    intros id c g b0 Hc Hph. rewrite Hb.
    assert (Hc' : conn_tick b (bc_first bc) g' <$> sockets s !! id = Some c).
    { rewrite <- lookup_fmap. by destruct (bc_first bc). }
    destruct (sockets s !! id) as [c1|] eqn:E; [|done].
    injection Hc' as <-. apply conn_tick_phase in Hph. by eauto.
  - apply (awaits_bounded_local s _ id'); try done.
    + intros id Hne. by apply fetched_other.
    + intros c' g b Hc Hph.
      destruct (fetched_no_await _ _ _ _ _ _ Hc Hph) as (c & ? & ?).
      by eauto.
  - unfold file_read. destruct (img s); done.
  - unfold deflated in *. destruct (img s); try done.
    intros id c g b Hc Hph. rewrite Hb.
    rewrite colorTexture_onNext_sockets, lookup_fmap in Hc. simpl in Hc.
    destruct (sockets s !! id) as [c1|] eqn:E; [|done].
    injection Hc as <-.
    destruct (flush_awaiting_frame
                (mkTexture c0 (length raw) 512 512) c1) as (Hp & _).
    rewrite Hp in Hph. by eauto.
  - destruct (get_vbo_sockets rid n q s) as [Hs|(tr & _ & Hs)].
    + by apply (awaits_bounded_same s).
    + intros id c g b Hc Hph. rewrite Hb. rewrite Hs in Hc.
      destruct (decide (id = prop_key q)) as [->|Hne].
      * destruct (sendingAll_await _ _ _ _ _ _ Hc Hph) as [->|(c1 & ? & ?)];
          [lia|by eauto].
      * rewrite sendingAll_other in Hc by done. by eauto.
  - unfold get_texture. destruct (colorTexture s); done.
Qed.

Lemma wf_socket_effect id e r : wf r -> wf (on_socket id (socket_effect e) r).
Proof.
  intros ((Hlen & Hep & Haw) & Ht & Hc).
  split; [|by split]. split; [exact Hlen|]. split; [exact Hep|].
  intros i c g b. unfold on_socket. simpl. rewrite lookup_alter.
  case_decide.
  - subst id. destruct (sockets r !! i) as [c1|] eqn:E; [|done].
    intros [= <-] Hph. simpl in Hph. by apply (Haw i c1 g b).
  - intros Hc' Hph. by apply (Haw i c g b).
Qed.

Lemma wf_frame s s' :
  globals s' = globals s -> awaits_bounded s' -> wf s -> wf s'.
Proof.
  intros Hg Haw ((Hlen & Hep & _) & Ht & Hc).
  destruct (epoch_part_ext s _ Hg (conj Hlen Hep)) as (Hlen' & Hep').
  unfold globals in Hg. injection Hg as Hb Hcs Htm Hgr.
  unfold wf, epochs_ok. rewrite Htm, Hgr, Hcs.
  rewrite Hcs in Hlen'. done.
Qed.

Lemma wf_step s ev : wf s -> wf (step s ev).
Proof.
  intros Hwf. pose proof (step_globals s ev) as Hgl.
  pose proof (awaits_bounded_step s ev Hwf) as Haw.
  destruct ev;
    try (apply (wf_frame s); [exact Hgl|exact (Haw Hgl)|exact Hwf]);
    clear Hgl Haw.
  - change (wf (if is_open id s then reset_graph id s else s)).
    destruct (is_open id s); [|exact Hwf].
    apply wf_socket_effect, wf_resetState, Hwf.
  - apply wf_tick, Hwf.
Qed.

Lemma wf_run evs : forall s, wf s -> wf (run s evs).
Proof.
  induction evs as [|ev evs IH]; intros s Hwf; [done|].
  simpl. apply IH. by apply wf_step.
Qed.

(** ** The snapshot cache *)




(** ** Reset *)

Lemma no_subscriber_before_connect s :
  epochs_ok s ->
  tick_subscribers (ticksMulti (before_connect s)) (before_connect s) = 0
  /\ tick_subscribers (ticksMulti (before_connect s))
       (connect (before_connect s)) = 0.
Proof.
  intros (_ & _ & Haw).
  assert (Hnone : size (filter
            (fun kc : string * Conn =>
               awaits_tick (length (broadcasters s)) kc.2 = true)
            (sockets s)) = 0).
  { apply map_size_empty_iff, map_empty. intros id.
    apply map_lookup_filter_None_2.
    destruct (sockets s !! id) as [c|] eqn:Hc; [right|by left].
    intros c' [= <-]. simpl. unfold awaits_tick.
    destruct (phase c) eqn:Hph; try done.
    pose proof (Haw id c _ _ Hc Hph). case_bool_decide; [lia|done]. }
  unfold tick_subscribers, before_connect, connect, publish, driver_create,
    clear_maps. simpl.
  rewrite Hnone.
  rewrite <- (Nat.add_0_r (length (broadcasters s))) at 1 3.
  rewrite alter_app_r, !lookup_app_r by lia.
  replace (length (broadcasters s) + 0 - length (broadcasters s)) with 0
    by lia.
  by replace (length (broadcasters s) - length (broadcasters s)) with 0
    by lia.
Qed.

(** C7.  [resetState] empties both per-connection maps, creates a new
    animation (a source number not used before), a new broadcaster over
    its ticks that is connected while nobody is subscribed to it, and a
    new, empty cache subscribed to that broadcaster through [take(1)].
    This holds of every invocation, so of a repeated one too: the session
    a second reset leaves is the one the first left. *)
Theorem resetState_fresh_session :
  (forall s,
     let s' := resetState s in
     lastCompressedVbos s' = ∅ /\ finishBufferTransfers s' = ∅
     /\ animStep s' = sources s /\ sources s' = S (sources s)
     /\ effects s' = effects s ++ [DriverCreate (sources s)]
     /\ ticksMulti s' = length (broadcasters s)
     /\ graph s' = length (caches s)
     /\ broadcasters s'
        = broadcasters s
          ++ [mkBroadcaster (animStep s') true (Some (graph s')) []]
     /\ caches s' = caches s ++ [None]
     /\ s' = subscribe_first (new_cache (connect (before_connect s)))
     /\ session (resetState s')
        = (∅, ∅, Some (true, [], true, true), Some None)
     /\ session s' = (∅, ∅, Some (true, [], true, true), Some None))
  /\ (forall cfg evs (s := run (boot cfg) evs),
        tick_subscribers (ticksMulti (before_connect s)) (before_connect s) = 0
        /\ tick_subscribers (ticksMulti (before_connect s))
             (connect (before_connect s)) = 0)
  /\ (forall cfg,
        tick_subscribers (ticksMulti (before_connect (blank cfg)))
          (connect (before_connect (blank cfg))) = 0).
Proof.
  assert (Hses : forall s,
    session (resetState s) = (∅, ∅, Some (true, [], true, true), Some None)).
  { intros s.
    destruct (resetState_unfold s)
      as (Hl & Hf & Ha & _ & Ht & Hg & Hb & Hc & _).
    unfold session. rewrite Hl, Hf, Ha, Ht, Hg, Hb, Hc.
    rewrite !list_lookup_middle by done. simpl.
    by rewrite !bool_decide_eq_true_2. }
  split; [|split].
  - intros s.
    destruct (resetState_unfold s)
      as (Hl & Hf & Ha & Hso & Ht & Hg & Hb & Hc & _ & He).
    cbv zeta. rewrite !Hses, Ha, Hg.
    repeat (split; [assumption || reflexivity|]). reflexivity.
  - intros cfg evs s. apply no_subscriber_before_connect.
    by destruct (wf_run evs _ (wf_boot cfg)).
  - intros cfg. apply no_subscriber_before_connect, blank_epochs_ok.
Qed.

(** ** The [/vbo] handler *)

Lemma get_vbo_try rid q_buffer q_id s :
  get_vbo rid q_buffer q_id s
  = call_tracker rid q_buffer q_id
      (effect (vbo_answer rid q_buffer q_id s) (effect (SetHeader rid) s)).
Proof.
  unfold get_vbo, try_send_vbo, vbo_answer. simpl.
  by destruct (lastCompressedVbos s !! prop_key q_id).
Qed.





(** C6.  Whatever the lookup of the buffer gives (the payload, nothing
    under that name, or a caught TypeError because the id has no buffer
    set), the handler goes on to call the tracker installed under the id
    with the requested name: the name is pushed, and if that brings the
    array to the expected length the completion signal goes out. *)
Theorem pull_recorded_whatever_lookup rid q_buffer q_id s tr :
  finishBufferTransfers s !! prop_key q_id = Some tr ->
  let s' := step s (GetVbo rid q_buffer q_id) in
  let pushed := transferredBuffers tr ++ [q_buffer] in
  s' = call_tracker rid q_buffer q_id
         (effect (vbo_answer rid q_buffer q_id s) (effect (SetHeader rid) s))
  /\ finishBufferTransfers s' !! prop_key q_id
     = Some (mkTracker pushed (tr_expected tr) (tr_subject tr))
  /\ effects s'
     = effects s
       ++ [SetHeader rid; vbo_answer rid q_buffer q_id s]
       ++ (if decide (length pushed = tr_expected tr)
           then [SendingAll (prop_key q_id) (tr_subject tr)] else []).
Proof.
  intros Htr. simpl. rewrite get_vbo_try. split; [done|].
  match goal with |- context [call_tracker _ _ _ ?t] =>
    destruct (call_tracker_pushes rid q_buffer q_id t tr Htr) as [-> ->] end.
  simpl. by rewrite <- !app_assoc.
Qed.

Lemma gone_buffers : lastCompressedVbos gone_after_one_pull !! "X" = None.
Proof. vm_compute. reflexivity. Qed.

Lemma gone_tracker :
  finishBufferTransfers gone_after_one_pull !! prop_key (Some "X")
  = Some (mkTracker [Some "a"] 2 0).
Proof. vm_compute. reflexivity. Qed.

Lemma pull_recorded_whatever_lookup_witness :
  let s := gone_after_one_pull in
  lastCompressedVbos s !! "X" = None
  /\ finishBufferTransfers s !! "X" = Some (mkTracker [Some "a"] 2 0)
  /\ effects (step s (GetVbo 1 (Some "b") (Some "X")))
     = effects s ++ [SetHeader 1; ConsoleError 1; SendingAll "X" 0].
Proof.
  cbv zeta. split; [exact gone_buffers|]. split; [exact gone_tracker|].
  generalize gone_buffers gone_tracker. generalize gone_after_one_pull.
  intros s Hl Ht.
  assert (H := proj2 (proj2 (pull_recorded_whatever_lookup 1 (Some "b")
                               (Some "X") s _ Ht))).
  unfold vbo_answer in H. change (prop_key (Some "X")) with "X" in H.
  rewrite Hl in H. exact H.
Defined.

(** ** The readiness flag *)

(** C9.  The connection callback leaves the flag of the new closure up,
    [true] being the first value its subject is given.  Every
    [received_buffers] message gives the subject [true]; the flag stays
    up unless a cycle parked in the Throttle state is there to take it:
    that cycle goes on and takes the flag down again. *)
Theorem readiness_raised s id time :
  match sockets s !! id with
  | None =>
      let s' := step s (Connection id) in
      ready_of id s' = Some true
      /\ head (log_of id s') = Some (ReadyNext true)
  | Some c =>
      let s' := step s (ReceivedBuffers id time) in
      log_of id s'
      = socket_log c
        ++ ReadyNext true
           :: match phase c with
              | Throttle g vbos => ReadyNext false :: notification s vbos
              | _ => []
              end
      /\ ready_of id s'
         = Some (match phase c with Throttle _ _ => false | _ => true end)
  end.
Proof.
  destruct (sockets s !! id) as [c|] eqn:Hc.
  - destruct (phase c) eqn:Hph;
      try (simpl; unfold received_buffers, clientReady_onNext, on_socket,
             ready_of, log_of; simpl; rewrite !lookup_alter_eq, Hc; simpl;
           rewrite Hph; simpl; rewrite lookup_alter_eq, Hc; done).
    cbv zeta. unfold ready_of, log_of.
    change (step s (ReceivedBuffers id time))
      with (received_buffers id time s).
    rewrite (received_buffers_parked id g vbos time s c Hc Hph). done.
  - simpl. unfold connection, ready_of, log_of. rewrite Hc. simpl.
    rewrite lookup_insert_eq.
    destruct (caches s !! graph s) as [[?|]|]; done.
Qed.

(** ** The [/texture] handler *)

(** C10.  Once the texture is there, a texture request is answered with
    the compressed texture, whatever the [texture] and [id] parameters
    are, present or absent: the handler reads them and does nothing with
    them, and no value of them leads anywhere but to the answer. *)
Theorem texture_pull_ignores_parameters s tx rid
    (t1 id1 t2 id2 : option string) :
  colorTexture s = Some tx ->
  step s (GetTexture rid t1 id1) = step s (GetTexture rid t2 id2)
  /\ effects (step s (GetTexture rid t1 id1))
     = effects s ++ [SetHeader rid; Send rid (Some (buffer tx))].
Proof.
  intros Htx. simpl. unfold get_texture. rewrite Htx. simpl.
  by rewrite <- app_assoc.
Qed.

Lemma texture_pull_ignores_parameters_witness :
  let s := run (boot ["a"; "b"]) first_cycle in
  colorTexture s = Some (mkTexture [Byte.x09] 1 512 512)
  /\ step s (GetTexture 3 (Some "colorMap") (Some "X"))
     = step s (GetTexture 3 None (Some "nobody"))
  /\ effects (step s (GetTexture 3 (Some "colorMap") (Some "X")))
     = effects s ++ [SetHeader 3; Send 3 (Some [Byte.x09])].
Proof.
  cbv zeta.
  assert (Htx : colorTexture (run (boot ["a"; "b"]) first_cycle)
                = Some (mkTexture [Byte.x09] 1 512 512))
    by (vm_compute; reflexivity).
  split; [exact Htx|].
  exact (texture_pull_ignores_parameters _ _ 3 (Some "colorMap") (Some "X")
           None (Some "nobody") Htx).
Defined.

(** ** The texture is computed once *)

Lemma quiet_refl s : quiet s s.
Proof. repeat split. exists []. by rewrite app_nil_r. Qed.

Lemma quiet_trans s1 s2 s3 : quiet s1 s2 -> quiet s2 s3 -> quiet s1 s3.
Proof.
  intros (Hi & Hc & Hw & l & He & Hl) (Hi' & Hc' & Hw' & l' & He' & Hl').
  unfold quiet. rewrite Hi', Hc', Hw', He', He.
  repeat split; try done. exists (l ++ l').
  by rewrite app_assoc, forallb_app, Hl, Hl'.
Qed.

(** A change of fields the texture pipeline does not own. *)
Lemma quiet_fields s s' :
  img s' = img s -> colorTexture s' = colorTexture s ->
  textureWaiters s' = textureWaiters s -> effects s' = effects s ->
  quiet s s'.
Proof.
  intros ? ? ? He. repeat split; try done. exists [].
  by rewrite He, app_nil_r.
Qed.

Lemma quiet_effect e s : is_texture_work e = false -> quiet s (effect e s).
Proof.
  intros He. repeat split. exists [e]. simpl. by rewrite He.
Qed.

Lemma quiet_on_socket id f s : quiet s (on_socket id f s).
Proof. by apply quiet_fields. Qed.

Create HintDb quiet.
#[local] Hint Resolve quiet_refl quiet_on_socket : quiet.
#[local] Hint Extern 1 (quiet _ (effect _ _)) =>
  apply quiet_effect; reflexivity : quiet.
#[local] Hint Extern 5 (quiet ?s (set_lastCompressedVbos _ ?s)) =>
  apply quiet_fields; reflexivity : quiet.
#[local] Hint Extern 5 (quiet ?s (set_finishBufferTransfers _ ?s)) =>
  apply quiet_fields; reflexivity : quiet.

(** Split off a last step that is known to be quiet. *)
Ltac quiet_after H := eapply quiet_trans; [|apply H]; eauto with quiet.

Lemma quiet_notify id g vbos s : quiet s (notify id g vbos s).
Proof.
  unfold notify. destruct (sockets s !! id); [|apply quiet_refl].
  cbn [colorTexture set_finishBufferTransfers set_subjects].
  destruct (colorTexture s) eqn:E; by apply quiet_fields.
Qed.

Lemma quiet_proceed id g vbos s : quiet s (proceed id g vbos s).
Proof. unfold proceed. quiet_after quiet_notify. Qed.

#[local] Hint Resolve quiet_notify quiet_proceed : quiet.

Lemma quiet_throttle id g vbos s : quiet s (throttle id g vbos s).
Proof. unfold throttle. repeat case_match; eauto with quiet. Qed.

Lemma quiet_fetched id vbos s : quiet s (fetched id vbos s).
Proof.
  unfold fetched. repeat case_match; eauto with quiet.
  quiet_after quiet_throttle.
Qed.

Lemma quiet_clientReady_onNext id v s : quiet s (clientReady_onNext id v s).
Proof.
  unfold clientReady_onNext. repeat case_match; eauto with quiet.
  quiet_after quiet_proceed.
Qed.

Lemma quiet_sendingAll id subj s : quiet s (sendingAllBuffers_onNext id subj s).
Proof.
  unfold sendingAllBuffers_onNext. cbv zeta.
  repeat case_match; eauto with quiet.
  quiet_after quiet_on_socket.
Qed.

Lemma quiet_get_vbo rid n q s : quiet s (get_vbo rid n q s).
Proof.
  rewrite get_vbo_try.
  assert (Hq : quiet s (effect (vbo_answer rid n q s)
                          (effect (SetHeader rid) s))).
  { eapply quiet_trans; apply quiet_effect; [done|].
    unfold vbo_answer. by destruct (lastCompressedVbos s !! prop_key q). }
  eapply quiet_trans; [exact Hq|].
  unfold call_tracker, finishBufferTransfer.
  match goal with |- quiet ?t _ => generalize t end. intros t.
  repeat case_match; eauto with quiet.
  quiet_after quiet_sendingAll.
Qed.

Lemma quiet_resetState s : quiet s (resetState s).
Proof.
  repeat split. exists [DriverCreate (sources s)]. split; [|done].
  by destruct (resetState_unfold s) as (_ & _ & _ & _ & _ & _ & _ & _ & _ & ->).
Qed.

Lemma quiet_tick b g s : quiet s (tick b g s).
Proof.
  unfold tick. repeat case_match; eauto with quiet; by apply quiet_fields.
Qed.

(** Nothing but the two completions and a texture request concerns the
    texture. *)
Lemma step_quiet s ev :
  match ev with
  | FileRead _ | Deflated _ | GetTexture _ _ _ => True
  | _ => quiet s (step s ev)
  end.
Proof.
  destruct ev; simpl; try done.
  - unfold connection. destruct (sockets s !! id); [apply quiet_refl|].
    apply quiet_fields; by destruct (caches s !! graph s) as [[?|]|].
  - destruct (is_open id s); [by apply quiet_fields|apply quiet_refl].
  - destruct (is_open id s); [by apply quiet_effect|apply quiet_refl].
  - destruct (is_open id s); [|apply quiet_refl].
    eapply quiet_trans; [apply quiet_resetState|apply quiet_on_socket].
  - apply quiet_clientReady_onNext.
  - apply quiet_tick.
  - apply quiet_fetched.
  - apply quiet_get_vbo.
Qed.




Lemma texture_pulls_snoc evs ev :
  texture_pulls (evs ++ [ev])
  = texture_pulls evs
    ++ match ev with GetTexture rid _ _ => [rid] | _ => [] end.
Proof.
  unfold texture_pulls. rewrite omap_app. f_equal. by destruct ev.
Qed.

Lemma colorTexture_onNext_texture tx s :
  let s' := colorTexture_onNext tx s in
  img s' = img s /\ colorTexture s' = Some tx /\ textureWaiters s' = []
  /\ effects s'
     = effects s
       ++ flat_map (fun rid => [SetHeader rid; Send rid (Some (buffer tx))])
            (textureWaiters s).
Proof.
  unfold colorTexture_onNext. simpl.
  by destruct (foldl_send_texture_frame (buffer tx) (textureWaiters s)
                 (set_colorTexture (Some tx) s))
    as (_ & -> & -> & _ & _ & _ & _ & _ & _ & ->).
Qed.







(** ** The two maps, one key at a time *)

Lemma notify_buffers id g vbos s :
  lastCompressedVbos (notify id g vbos s) = lastCompressedVbos s.
Proof.
  unfold notify, on_socket. destruct (sockets s !! id); [|done].
  simpl. by destruct (colorTexture s).
Qed.

Lemma notify_tracker_self id g vbos s c :
  sockets s !! id = Some c ->
  finishBufferTransfers (notify id g vbos s) !! id
  = Some (mkTracker [] (length (activeBuffers c)) (subjects s))
  /\ subjects (notify id g vbos s) = S (subjects s).
Proof.
  intros Hc. unfold notify, on_socket. rewrite Hc. simpl.
  destruct (colorTexture s); simpl; by rewrite lookup_insert_eq.
Qed.

Lemma notify_trackers_other id id' g vbos s :
  id <> id' ->
  finishBufferTransfers (notify id' g vbos s) !! id
  = finishBufferTransfers s !! id.
Proof.
  intros Hne. unfold notify, on_socket. destruct (sockets s !! id'); [|done].
  simpl. destruct (colorTexture s); simpl; by rewrite lookup_insert_ne.
Qed.

Lemma proceed_buffers id g vbos s :
  lastCompressedVbos (proceed id g vbos s) = lastCompressedVbos s.
Proof. unfold proceed. by rewrite notify_buffers. Qed.

Lemma proceed_tracker_self id g vbos s c :
  sockets s !! id = Some c ->
  finishBufferTransfers (proceed id g vbos s) !! id
  = Some (mkTracker [] (length (activeBuffers c)) (subjects s))
  /\ subjects (proceed id g vbos s) = S (subjects s).
Proof.
  intros Hc. unfold proceed.
  assert (Hst : sockets (on_socket id (ready_store false) s) !! id
                = Some (ready_store false c)).
  { unfold on_socket. simpl. by rewrite lookup_alter_eq, Hc. }
  destruct (notify_tracker_self id g vbos _ _ Hst) as [H1 H2].
  split; [exact H1|exact H2].
Qed.

Lemma proceed_trackers_other id id' g vbos s :
  id <> id' ->
  finishBufferTransfers (proceed id' g vbos s) !! id
  = finishBufferTransfers s !! id.
Proof. intros Hne. unfold proceed. by rewrite notify_trackers_other. Qed.

Lemma throttle_buffers id g vbos s :
  lastCompressedVbos (throttle id g vbos s) = lastCompressedVbos s.
Proof.
  unfold throttle. destruct (sockets s !! id) as [c|]; [|done].
  destruct (clientReady c); [apply proceed_buffers|done].
Qed.

Lemma throttle_trackers_other id id' g vbos s :
  id <> id' ->
  finishBufferTransfers (throttle id' g vbos s) !! id
  = finishBufferTransfers s !! id.
Proof.
  intros Hne. unfold throttle. destruct (sockets s !! id') as [c|]; [|done].
  destruct (clientReady c); [by apply proceed_trackers_other|done].
Qed.

Lemma fetched_buffers id vbos s c g :
  sockets s !! id = Some c -> phase c = Fetch g ->
  lastCompressedVbos (fetched id vbos s)
  = <[id := compressed vbos]> (lastCompressedVbos s).
Proof.
  intros Hc Hph. unfold fetched. rewrite Hc, Hph.
  by rewrite throttle_buffers.
Qed.

Lemma fetched_buffers_other id id' vbos s :
  id <> id' ->
  lastCompressedVbos (fetched id' vbos s) !! id = lastCompressedVbos s !! id.
Proof.
  intros Hne. unfold fetched. destruct (sockets s !! id') as [c|]; [|done].
  destruct (phase c); try done.
  rewrite throttle_buffers. simpl. by rewrite lookup_insert_ne.
Qed.

Lemma fetched_trackers_other id id' vbos s :
  id <> id' ->
  finishBufferTransfers (fetched id' vbos s) !! id
  = finishBufferTransfers s !! id.
Proof.
  intros Hne. unfold fetched. destruct (sockets s !! id') as [c|]; [|done].
  destruct (phase c); try done. by rewrite throttle_trackers_other.
Qed.

Lemma clientReady_onNext_buffers id v s :
  lastCompressedVbos (clientReady_onNext id v s) = lastCompressedVbos s.
Proof.
  unfold clientReady_onNext.
  destruct (sockets (on_socket id (ready_store v) s) !! id) as [c|]; [|done].
  destruct (phase c); try done. destruct v; [|done].
  by rewrite proceed_buffers.
Qed.

Lemma clientReady_onNext_trackers_other id id' v s :
  id <> id' ->
  finishBufferTransfers (clientReady_onNext id' v s) !! id
  = finishBufferTransfers s !! id.
Proof.
  intros Hne. unfold clientReady_onNext.
  destruct (sockets (on_socket id' (ready_store v) s) !! id') as [c|];
    [|done].
  destruct (phase c); try done. destruct v; [|done].
  by rewrite proceed_trackers_other.
Qed.

(** A message that raises the flag installs a tracker only for a loop
    parked in state 2. *)
Lemma clientReady_onNext_trackers_idle id v s c :
  sockets s !! id = Some c ->
  (forall g vbos, phase c <> Throttle g vbos) ->
  finishBufferTransfers (clientReady_onNext id v s) = finishBufferTransfers s
  /\ phase_of id (clientReady_onNext id v s) = Some (phase c).
Proof.
  intros Hc Hph. unfold clientReady_onNext, phase_of.
  assert (Hst : sockets (on_socket id (ready_store v) s) !! id
                = Some (ready_store v c)).
  { unfold on_socket. simpl. by rewrite lookup_alter_eq, Hc. }
  rewrite Hst. change (phase (ready_store v c)) with (phase c).
  destruct (phase c) as [?|?|g0 v0|? ?|? ?] eqn:E;
    try (rewrite Hst; simpl; by rewrite E).
  by destruct (Hph g0 v0).
Qed.

Lemma get_vbo_buffers rid n q s :
  lastCompressedVbos (get_vbo rid n q s) = lastCompressedVbos s
  /\ subjects (get_vbo rid n q s) = subjects s
  /\ colorTexture (get_vbo rid n q s) = colorTexture s.
Proof.
  rewrite get_vbo_try. unfold call_tracker, finishBufferTransfer.
  match goal with |- context [finishBufferTransfers ?t !! _] =>
    change (finishBufferTransfers t) with (finishBufferTransfers s) end.
  destruct (finishBufferTransfers s !! prop_key q) as [tr|]; [|done].
  case_decide; [|done].
  unfold sendingAllBuffers_onNext, on_socket. simpl.
  destruct (sockets s !! prop_key q) as [c|]; [|done].
  destruct (phase c); try done. by case_decide.
Qed.

Lemma get_vbo_trackers_other rid n q s id :
  id <> prop_key q ->
  finishBufferTransfers (get_vbo rid n q s) !! id
  = finishBufferTransfers s !! id.
Proof.
  intros Hne. rewrite get_vbo_try. unfold call_tracker, finishBufferTransfer.
  match goal with |- context [finishBufferTransfers ?t !! prop_key q] =>
    change (finishBufferTransfers t) with (finishBufferTransfers s) end.
  destruct (finishBufferTransfers s !! prop_key q) as [tr|]; [|done].
  case_decide.
  - match goal with |- context [sendingAllBuffers_onNext ?i ?j ?t] =>
      destruct (sendingAll_frame i j t) as [-> _] end.
    simpl. by rewrite lookup_insert_ne.
  - simpl. by rewrite lookup_insert_ne.
Qed.

(** Without a tracker under the id, a buffer request changes nothing but
    the effect log. *)
Lemma get_vbo_no_tracker rid n q s :
  finishBufferTransfers s !! prop_key q = None ->
  finishBufferTransfers (get_vbo rid n q s) = finishBufferTransfers s
  /\ sockets (get_vbo rid n q s) = sockets s.
Proof.
  intros Hnone. rewrite get_vbo_try. unfold call_tracker. simpl.
  by rewrite Hnone.
Qed.

(** ** Buffers: from the fetch to the pull *)


Lemma second_fetch_socket :
  exists c, sockets second_fetch !! "X" = Some c /\ phase c = Fetch 5.
Proof. vm_compute. eexists. split; reflexivity. Qed.


(** ** One socket's events and the others *)

(** X2.  A message on one socket, a fetch coming back for it, or a
    buffer request naming it leaves every other socket's closure, buffer
    set and tracker as they were.  ([reset_graph] is not among these: it
    empties both maps for everybody.) *)
Theorem other_sockets_untouched s ev id id' :
  addressee ev = Some id' ->
  id <> id' ->
  let s' := step s ev in
  sockets s' !! id = sockets s !! id
  /\ lastCompressedVbos s' !! id = lastCompressedVbos s !! id
  /\ finishBufferTransfers s' !! id = finishBufferTransfers s !! id.
Proof.
  intros Hev Hne. cbv zeta.
  destruct ev as [i|i|i p|i|i t|b g'|i v|raw|c0|rid n q|rid t q];
    simpl in Hev; try done; injection Hev as <-.
  - simpl. unfold connection. destruct (sockets s !! i); [done|].
    simpl. by rewrite !lookup_insert_ne.
  - simpl. destruct (is_open i s); [|done].
    simpl. by rewrite lookup_delete_ne.
  - simpl. by destruct (is_open i s).
  - change (step s (ReceivedBuffers i t)) with (clientReady_onNext i true s).
    rewrite clientReady_onNext_other, clientReady_onNext_buffers,
      clientReady_onNext_trackers_other by done.
    done.
  - change (step s (Fetched i v)) with (fetched i v s).
    by rewrite fetched_other, fetched_buffers_other, fetched_trackers_other.
  - change (step s (GetVbo rid n q)) with (get_vbo rid n q s).
    destruct (get_vbo_buffers rid n q s) as (-> & _ & _).
    rewrite get_vbo_trackers_other by done.
    repeat split.
    destruct (get_vbo_sockets rid n q s) as [->|(tr & _ & ->)]; [done|].
    by apply sendingAll_other.
Qed.

Lemma other_sockets_untouched_witness :
  let s := run (boot ["a"; "b"]) (first_cycle ++ [Connection "Y"]) in
  let s' := step s (GetVbo 3 (Some "a") (Some "X")) in
  sockets s' !! "Y" = sockets s !! "Y"
  /\ lastCompressedVbos s' !! "Y" = lastCompressedVbos s !! "Y"
  /\ finishBufferTransfers s' !! "Y" = finishBufferTransfers s !! "Y".
Proof.
  cbv zeta.
  apply (other_sockets_untouched _ (GetVbo 3 (Some "a") (Some "X")) "Y" "X");
    [reflexivity|discriminate].
Defined.

(** ** Disconnect *)

(** X3.  Disconnecting removes the socket's buffer set and nothing else:
    its loop and its tracker stay, and nothing is logged.  So when the
    fetch that was in flight comes back, the loop stores a buffer set
    under the departed socket's id again. *)
Theorem disconnect_leaves_loop_running id s c g vbos :
  sockets s !! id = Some c ->
  phase c = Fetch g ->
  let s1 := step s (Disconnect id) in
  let s2 := step s1 (Fetched id vbos) in
  lastCompressedVbos s1 = delete id (lastCompressedVbos s)
  /\ sockets s1 = sockets s
  /\ finishBufferTransfers s1 = finishBufferTransfers s
  /\ effects s1 = effects s
  /\ lastCompressedVbos s2 !! id = Some (compressed vbos)
  /\ (exists c2, sockets s2 !! id = Some c2
                 /\ forall g', phase c2 <> Fetch g').
Proof.
  intros Hc Hph. cbv zeta. simpl. unfold is_open.
  rewrite bool_decide_eq_true_2 by (by rewrite Hc).
  repeat (split; [done|]).
  assert (Hc1 : sockets (disconnect id s) !! id = Some c) by done.
  generalize dependent (disconnect id s). intros s1 Hc1.
  split.
  - rewrite (fetched_buffers id vbos s1 c g Hc1 Hph). apply lookup_insert_eq.
  - unfold fetched. rewrite Hc1, Hph. unfold throttle. simpl. rewrite Hc1.
    destruct (clientReady c).
    + rewrite (proceed_self id g vbos _ c) by done. eexists. split; [done|].
      done.
    + unfold on_socket. simpl. rewrite lookup_alter_eq, Hc1. simpl.
      eexists. split; [done|]. done.
Qed.

Lemma disconnect_leaves_loop_running_witness :
  let s1 := step second_fetch (Disconnect "X") in
  lastCompressedVbos s1 !! "X" = None
  /\ lastCompressedVbos (step s1 (Fetched "X" sample_vbos)) !! "X"
     = Some (compressed sample_vbos).
Proof.
  destruct second_fetch_socket as (c & Hc & Hph).
  destruct (disconnect_leaves_loop_running "X" second_fetch c 5 sample_vbos
              Hc Hph) as (H1 & _ & _ & _ & H2 & _).
  split; [|exact H2].
  cbv zeta. rewrite H1. apply lookup_delete_eq.
Defined.

(** ** A reset during a delivery *)

Lemma foldl_send_texture_maps data (rids : list nat) : forall s,
  let s' := foldl (fun s rid => send_texture data rid s) s rids in
  finishBufferTransfers s' = finishBufferTransfers s
  /\ lastCompressedVbos s' = lastCompressedVbos s
  /\ subjects s' = subjects s.
Proof.
  induction rids as [|rid rids IH]; intros s; simpl; [done|].
  by destruct (IH (send_texture data rid s)) as (-> & -> & ->).
Qed.

Lemma colorTexture_onNext_maps tx s :
  finishBufferTransfers (colorTexture_onNext tx s) = finishBufferTransfers s
  /\ lastCompressedVbos (colorTexture_onNext tx s) = lastCompressedVbos s
  /\ subjects (colorTexture_onNext tx s) = subjects s.
Proof.
  unfold colorTexture_onNext. simpl.
  by destruct (foldl_send_texture_maps (buffer tx) (textureWaiters s)
                 (set_colorTexture (Some tx) s)) as (-> & -> & ->).
Qed.

(** Close a goal about a loop whose closure [Hc] and phase [Hph] are
    known and have not changed. *)
Ltac same_loop Hc Hph :=
  repeat split; rewrite ?Hc; simpl; rewrite ?Hph; done.

Lemma stranded_step id g subj s ev :
  stranded id g subj s -> stranded id g subj (step s ev).
Proof.
  intros [Hph Htr]. unfold stranded, phase_of in *.
  destruct (sockets s !! id) as [c|] eqn:Hc; [|done].
  injection Hph as Hph.
  destruct ev as [i|i|i p|i|i t|b g'|i v|raw|c0|rid n q|rid t q].
  - simpl. unfold connection. destruct (sockets s !! i) eqn:E.
    + same_loop Hc Hph.
    + simpl. rewrite lookup_insert_ne by congruence. same_loop Hc Hph.
  - simpl. destruct (is_open i s); simpl; same_loop Hc Hph.
  - simpl. destruct (is_open i s); simpl; same_loop Hc Hph.
  - simpl. destruct (is_open i s); [|same_loop Hc Hph].
    unfold reset_graph, on_socket. simpl. rewrite lookup_alter.
    case_decide; subst; same_loop Hc Hph.
  - change (step s (ReceivedBuffers i t)) with (clientReady_onNext i true s).
    destruct (decide (i = id)) as [->|Hne].
    + destruct (clientReady_onNext_trackers_idle id true s c Hc)
        as [-> Hp]; [intros ? ?; by rewrite Hph|].
      unfold phase_of in Hp. by rewrite Hp, Hph.
    + rewrite clientReady_onNext_other,
        clientReady_onNext_trackers_other by done.
      same_loop Hc Hph.
  - simpl. unfold tick. destruct (broadcasters s !! b) as [bc|];
      [|same_loop Hc Hph].
    destruct (bc_connected bc); [|same_loop Hc Hph].
    split; [|by destruct (bc_first bc)].
    assert (Hs : (conn_tick b (bc_first bc) g' <$> sockets s) !! id
                 = Some c).
    { rewrite lookup_fmap, Hc. simpl. unfold conn_tick. by rewrite Hph. }
    destruct (bc_first bc); simpl; rewrite Hs; simpl; by rewrite Hph.
  - change (step s (Fetched i v)) with (fetched i v s).
    destruct (decide (i = id)) as [->|Hne].
    + unfold fetched. rewrite Hc, Hph. same_loop Hc Hph.
    + rewrite fetched_other, fetched_trackers_other by done.
      same_loop Hc Hph.
  - simpl. unfold file_read. destruct (img s); simpl; same_loop Hc Hph.
  - simpl. unfold deflated.
    destruct (img s) as [| |raw|]; try (same_loop Hc Hph).
    rewrite colorTexture_onNext_sockets.
    change (sockets (set_img Done s)) with (sockets s).
    rewrite lookup_fmap, Hc. cbn [fmap option_fmap option_map].
    destruct (flush_awaiting_frame
                (mkTexture c0 (length raw) 512 512) c) as (-> & _).
    split; [by rewrite Hph|].
    by destruct (colorTexture_onNext_maps
                   (mkTexture c0 (length raw) 512 512) (set_img Done s))
      as (-> & _).
  - change (step s (GetVbo rid n q)) with (get_vbo rid n q s).
    destruct (decide (prop_key q = id)) as [Heq|Hne].
    + destruct (get_vbo_no_tracker rid n q s) as [-> ->];
        [by rewrite Heq|].
      same_loop Hc Hph.
    + rewrite get_vbo_trackers_other by done. split; [|done].
      destruct (get_vbo_sockets rid n q s) as [->|(tr & _ & ->)].
      * same_loop Hc Hph.
      * rewrite sendingAll_other by done. same_loop Hc Hph.
  - simpl. unfold get_texture, send_texture.
    destruct (colorTexture s); simpl; same_loop Hc Hph.
Qed.

Lemma stranded_run id g subj evs : forall s,
  stranded id g subj s -> stranded id g subj (run s evs).
Proof.
  induction evs as [|ev evs IH]; intros s Hs; [done|].
  simpl. apply IH. by apply stranded_step.
Qed.

(** X4.  A reset while a loop waits for its buffers to be pulled strands
    that loop for good.  The reset drops its tracker and nothing installs
    another for a loop in that state: whatever events follow, the loop is
    still waiting for the same delivery, no tracker stands under its id,
    and each buffer request for it ends in the uncaught TypeError. *)
Theorem reset_strands_delivery id id' s c g subj evs :
  sockets s !! id = Some c ->
  phase c = AwaitDelivery g subj ->
  is_open id' s = true ->
  let s' := run (step s (ResetGraph id')) evs in
  phase_of id s' = Some (AwaitDelivery g subj)
  /\ finishBufferTransfers s' !! id = None
  /\ forall rid n,
       last (effects (step s' (GetVbo rid n (Some id)))) = Some (Uncaught rid).
Proof.
  intros Hc Hph Hopen. cbv zeta.
  assert (Hs : stranded id g subj (step s (ResetGraph id'))).
  { simpl. rewrite Hopen. unfold stranded, phase_of, reset_graph, on_socket.
    simpl. split; [|done]. rewrite lookup_alter.
    case_decide; subst; rewrite Hc; simpl; by rewrite Hph. }
  destruct (stranded_run id g subj evs _ Hs) as [Hp Ht].
  split; [exact Hp|]. split; [exact Ht|].
  intros rid n. generalize dependent (run (step s (ResetGraph id')) evs).
  intros s' _ Ht.
  change (step s' (GetVbo rid n (Some id))) with (get_vbo rid n (Some id) s').
  rewrite get_vbo_try. unfold call_tracker. simpl.
  change (prop_key (Some id)) with id. rewrite Ht. simpl.
  by rewrite last_snoc.
Qed.

Lemma after_first_cycle_socket :
  exists c, sockets (run (boot ["a"; "b"]) first_cycle) !! "X" = Some c
            /\ phase c = AwaitDelivery 5 0.
Proof. vm_compute. eexists. split; reflexivity. Qed.

Lemma after_first_cycle_open :
  is_open "X" (run (boot ["a"; "b"]) first_cycle) = true.
Proof. vm_compute. reflexivity. Qed.

Lemma reset_strands_delivery_witness :
  let evs := pull_requests "X" [Some "a"; Some "b"]
             ++ [Tick 1 9; ReceivedBuffers "X" 12; Tick 0 6] in
  phase_of "X"
    (run (step (run (boot ["a"; "b"]) first_cycle) (ResetGraph "X")) evs)
  = Some (AwaitDelivery 5 0).
Proof.
  destruct after_first_cycle_socket as (c & Hc & Hph).
  exact (proj1 (reset_strands_delivery "X" "X" _ c 5 0 _ Hc Hph
                  after_first_cycle_open)).
Defined.

(** ** Ticks and epochs *)

(** X5.  A tick of one broadcaster moves only the loops subscribed to its
    own epoch.  A loop that waits on another epoch (the cache it attached
    to before a reset, or the broadcaster it subscribed to in state 4)
    and a loop that is not waiting for a tick at all are left exactly as
    they were. *)
Theorem tick_moves_own_epoch_only cfg evs id c b (g' : Snapshot) :
  let s := run (boot cfg) evs in
  sockets s !! id = Some c ->
  waits_on c <> Some b ->
  sockets (step s (Tick b g')) !! id = Some c.
Proof.
  intros s Hc Hw.
  destruct (wf_run evs _ (wf_boot cfg)) as ((_ & Hep & _) & _ & _).
  fold s in Hep. simpl. unfold tick.
  destruct (broadcasters s !! b) as [bc|] eqn:Hb; [|done].
  destruct (bc_connected bc); [|done].
  destruct (Hep b bc Hb) as (_ & _ & Hfirst).
  assert (Hs : (conn_tick b (bc_first bc) g' <$> sockets s) !! id = Some c).
  { rewrite lookup_fmap, Hc. simpl. f_equal. unfold conn_tick.
    unfold waits_on in Hw. destruct (phase c) as [e| | | |g0 b0]; try done.
    - case_decide as Hf; [|done]. rewrite Hfirst in Hf.
      destruct (bc_emitted bc); [|done]. injection Hf as ->. done.
    - case_decide; [|done]. subst. done. }
  destruct (bc_first bc); simpl; exact Hs.
Qed.

Lemma tick_moves_own_epoch_only_witness :
  let s := run (boot ["a"; "b"]) [Connection "X"; ResetGraph "X"] in
  phase_of "X" s = Some (AwaitSnapshot 0)
  /\ phase_of "X" (step s (Tick 1 9)) = Some (AwaitSnapshot 0).
Proof.
  cbv zeta.
  assert (Hc : exists c,
    sockets (run (boot ["a"; "b"]) [Connection "X"; ResetGraph "X"]) !! "X"
    = Some c /\ phase c = AwaitSnapshot 0).
  { vm_compute. eexists. split; reflexivity. }
  destruct Hc as (c & Hc & Hph).
  assert (Hw : waits_on c <> Some 1) by (unfold waits_on; by rewrite Hph).
  pose proof (tick_moves_own_epoch_only ["a"; "b"]
                [Connection "X"; ResetGraph "X"] "X" c 1 9 Hc Hw) as H.
  unfold phase_of. rewrite H, Hc. simpl. by rewrite Hph.
Defined.

(** ** The server seen from one socket *)

Lemma proceed_proceeded id g vbos s c :
  sockets s !! id = Some c ->
  sockets (proceed id g vbos s) !! id = Some (proceeded s c g vbos).
Proof. apply proceed_self. Qed.

Lemma get_vbo_sockets_exact rid n q s :
  sockets (get_vbo rid n q s)
  = match finishBufferTransfers s !! prop_key q with
    | Some tr =>
        if decide (length (transferredBuffers tr ++ [n]) = tr_expected tr)
        then sockets (sendingAllBuffers_onNext (prop_key q) (tr_subject tr) s)
        else sockets s
    | None => sockets s
    end.
Proof.
  rewrite get_vbo_try. unfold call_tracker, finishBufferTransfer.
  match goal with |- context [finishBufferTransfers ?t !! prop_key q] =>
    change (finishBufferTransfers t) with (finishBufferTransfers s) end.
  destruct (finishBufferTransfers s !! prop_key q) as [tr|]; [|done].
  case_decide; [|done].
  unfold sendingAllBuffers_onNext, on_socket. simpl.
  destruct (sockets s !! prop_key q) as [c|]; [|done].
  destruct (phase c); try done. by case_decide.
Qed.

Lemma sendingAll_self id subj s c :
  sockets s !! id = Some c ->
  sockets (sendingAllBuffers_onNext id subj s) !! id
  = Some (match phase c with
          | AwaitDelivery g subj' =>
              if decide (subj' = subj)
              then set_phase (AwaitTick g (ticksMulti s)) c else c
          | _ => c
          end).
Proof.
  intros Hc. unfold sendingAllBuffers_onNext, on_socket. simpl. rewrite Hc.
  destruct (phase c); try done. case_decide; [|done].
  simpl. by rewrite lookup_alter_eq, Hc.
Qed.

(** Every event acts on the closure of an existing socket through
    [closure_step]. *)
Lemma step_closure s ev id c :
  sockets s !! id = Some c ->
  sockets (step s ev) !! id = Some (closure_step s ev id c).
Proof.
  intros Hc.
  destruct ev as [i|i|i p|i|i t|b g'|i v|raw|c0|rid n q|rid t q].
  - simpl. unfold connection. destruct (sockets s !! i) eqn:E; [done|].
    simpl. rewrite lookup_insert_ne by congruence. done.
  - simpl. by destruct (is_open i s).
  - simpl. by destruct (is_open i s).
  - simpl. destruct (is_open i s); [|done].
    unfold reset_graph, on_socket. simpl. rewrite lookup_alter.
    case_decide; [subst|]; by rewrite Hc.
  - change (step s (ReceivedBuffers i t)) with (received_buffers i t s).
    simpl. case_decide as Hi.
    + subst i. unfold received_buffers, clientReady_onNext.
      assert (Hst : sockets (on_socket id (ready_store true) s) !! id
                    = Some (ready_store true c)).
      { unfold on_socket. simpl. by rewrite lookup_alter_eq, Hc. }
      rewrite Hst. change (phase (ready_store true c)) with (phase c).
      destruct (phase c); try exact Hst.
      by rewrite (proceed_proceeded _ _ _ _ _ Hst).
    + unfold received_buffers. by rewrite clientReady_onNext_other.
  - simpl. unfold tick. destruct (broadcasters s !! b) as [bc|]; [|done].
    destruct (bc_connected bc); [|done].
    destruct (bc_first bc); simpl; by rewrite lookup_fmap, Hc.
  - change (step s (Fetched i v)) with (fetched i v s).
    simpl. case_decide as Hi.
    + subst i. unfold fetched. rewrite Hc.
      destruct (phase c); try done.
      unfold throttle. simpl. rewrite Hc. destruct (clientReady c).
      * by rewrite (proceed_proceeded _ _ _ _ c).
      * unfold on_socket. simpl. by rewrite lookup_alter_eq, Hc.
    + by rewrite fetched_other.
  - simpl. unfold file_read. by destruct (img s).
  - simpl. unfold deflated. destruct (img s) as [| |raw|]; try done.
    rewrite colorTexture_onNext_sockets.
    change (sockets (set_img Done s)) with (sockets s).
    by rewrite lookup_fmap, Hc.
  - change (step s (GetVbo rid n q)) with (get_vbo rid n q s).
    rewrite get_vbo_sockets_exact. simpl. unfold closure_pulled.
    case_decide as Hk.
    + rewrite Hk.
      destruct (finishBufferTransfers s !! id) as [tr|]; [|done].
      case_decide; [|done]. by apply sendingAll_self.
    + destruct (finishBufferTransfers s !! prop_key q) as [tr|]; [|done].
      case_decide; [|done]. by rewrite sendingAll_other.
  - simpl. unfold get_texture, send_texture. by destruct (colorTexture s).
Qed.

(** A socket appears through its own connection only. *)
Lemma step_new_closure s ev id :
  sockets s !! id = None ->
  sockets (step s ev) !! id
  = match ev with
    | Connection i => if decide (i = id) then Some (fresh_closure s) else None
    | _ => None
    end.
Proof.
  intros Hc.
  destruct ev as [i|i|i p|i|i t|b g'|i v|raw|c0|rid n q|rid t q].
  - simpl. unfold connection. case_decide as Hi.
    + subst i. rewrite Hc. simpl. by rewrite lookup_insert_eq.
    + destruct (sockets s !! i); [done|].
      simpl. by rewrite lookup_insert_ne.
  - simpl. by destruct (is_open i s).
  - simpl. by destruct (is_open i s).
  - simpl. destruct (is_open i s); [|done].
    unfold reset_graph, on_socket. simpl. rewrite lookup_alter.
    case_decide; [subst|]; by rewrite Hc.
  - change (step s (ReceivedBuffers i t)) with (clientReady_onNext i true s).
    destruct (decide (i = id)) as [->|Hne].
    + unfold clientReady_onNext.
      assert (Hst : sockets (on_socket id (ready_store true) s) !! id = None).
      { unfold on_socket. simpl. by rewrite lookup_alter_eq, Hc. }
      by rewrite Hst.
    + by rewrite clientReady_onNext_other.
  - simpl. unfold tick. destruct (broadcasters s !! b) as [bc|]; [|done].
    destruct (bc_connected bc); [|done].
    destruct (bc_first bc); simpl; by rewrite lookup_fmap, Hc.
  - change (step s (Fetched i v)) with (fetched i v s).
    destruct (decide (i = id)) as [->|Hne].
    + unfold fetched. by rewrite Hc.
    + by rewrite fetched_other.
  - simpl. unfold file_read. by destruct (img s).
  - simpl. unfold deflated. destruct (img s) as [| |raw|]; try done.
    rewrite colorTexture_onNext_sockets.
    change (sockets (set_img Done s)) with (sockets s).
    by rewrite lookup_fmap, Hc.
  - change (step s (GetVbo rid n q)) with (get_vbo rid n q s).
    rewrite get_vbo_sockets_exact.
    destruct (finishBufferTransfers s !! prop_key q) as [tr|]; [|done].
    case_decide; [|done].
    destruct (decide (prop_key q = id)) as [Hk|Hne].
    + rewrite Hk. unfold sendingAllBuffers_onNext. simpl. by rewrite Hc.
    + by rewrite sendingAll_other.
  - simpl. unfold get_texture, send_texture. by destruct (colorTexture s).
Qed.

Lemma step_texture s ev : colorTexture (step s ev) = texture_step s ev.
Proof.
  pose proof (step_quiet s ev) as Hq.
  destruct ev; try (by destruct Hq as (_ & ? & _)); clear Hq.
  - simpl. unfold file_read. by destruct (img s).
  - simpl. unfold deflated. destruct (img s) as [| |raw0|]; try done.
    by destruct (colorTexture_onNext_texture
                   (mkTexture compressed0 (length raw0) 512 512)
                   (set_img Done s)) as (_ & -> & _).
  - simpl. unfold get_texture, send_texture.
    destruct (colorTexture s) eqn:E; simpl; by rewrite ?E.
Qed.

(** ** The books of a closure *)

Lemma tally_effect p e c :
  tally p (socket_effect e c) = tally p c + (if p e then 1 else 0).
Proof.
  unfold tally. simpl. rewrite List.filter_app, length_app. simpl.
  by destruct (p e).
Qed.

Lemma tally_notification p s vbos :
  length (List.filter p (notification s vbos))
  = match colorTexture s with
    | Some tx => if p (VboUpdate (lengths vbos tx)) then 1 else 0
    | None => 0
    end.
Proof.
  unfold notification. destruct (colorTexture s) as [tx|]; [|done].
  simpl. by destruct (p _).
Qed.

Lemma tally_proceeded p s c g vbos :
  tally p (proceeded s c g vbos)
  = tally p c + (if p (ReadyNext false) then 1 else 0)
    + length (List.filter p (notification s vbos)).
Proof.
  unfold tally, proceeded. simpl.
  rewrite List.filter_app, length_app. simpl.
  destruct (p (ReadyNext false)); simpl; lia.
Qed.

Lemma tally_flush p tx c :
  tally p (flush_awaiting tx c)
  = tally p c
    + length (List.filter p
                (map (fun vbos => VboUpdate (lengths vbos tx))
                   (awaitingTexture c))).
Proof.
  unfold tally. destruct (flush_awaiting_frame tx c) as (_ & _ & _ & _ & ->).
  by rewrite List.filter_app, length_app.
Qed.

Lemma tally_conn_tick p b first g c :
  (forall g0, p (FetchData g0 (activeBuffers c)) = false) ->
  tally p (conn_tick b first g c) = tally p c.
Proof.
  intros Hall. unfold conn_tick.
  destruct (phase c); try done; case_decide; try done;
    unfold start_fetch, tally; simpl;
    rewrite List.filter_app, length_app; simpl; rewrite Hall; simpl; lia.
Qed.

Lemma conn_ok_fresh tx s : conn_ok tx (fresh_closure s).
Proof.
  unfold fresh_closure, conn_ok.
  destruct (caches s !! graph s) as [[g|]|]; by destruct tx.
Qed.

Lemma conn_ok_ready_true tx c : conn_ok tx c -> conn_ok tx (ready_store true c).
Proof.
  intros (H1 & H2 & H3). unfold conn_ok, ready_store.
  rewrite !tally_effect. simpl. unfold tally in *. simpl.
  split; [lia|]. split; [destruct (clientReady c); lia|].
  destruct tx; [done|lia].
Qed.

Lemma conn_ok_proceeded s c g vbos :
  conn_ok (colorTexture s) c -> clientReady c = true ->
  conn_ok (colorTexture s) (proceeded s c g vbos).
Proof.
  intros (H1 & H2 & H3) Hr. unfold conn_ok.
  rewrite !tally_proceeded, !tally_notification. rewrite Hr in H2.
  simpl. destruct (colorTexture s) as [tx|]; simpl.
  - rewrite H3 in *. simpl in *. split; [lia|]. split; [lia|done].
  - rewrite length_app. simpl. split; [lia|]. split; lia.
Qed.

Lemma conn_ok_flush tx0 tx c :
  conn_ok tx0 c -> conn_ok (Some tx) (flush_awaiting tx c).
Proof.
  intros (H1 & H2 & H3). unfold conn_ok. rewrite !tally_flush.
  destruct (flush_awaiting_frame tx c) as (_ & -> & _ & -> & _).
  assert (Hv : forall l : list Vbos,
    length (List.filter is_VboUpdate
              (map (fun vbos => VboUpdate (lengths vbos tx)) l)) = length l
    /\ length (List.filter is_lower
                 (map (fun vbos => VboUpdate (lengths vbos tx)) l)) = 0
    /\ length (List.filter is_raise
                 (map (fun vbos => VboUpdate (lengths vbos tx)) l)) = 0).
  { induction l as [|v l (IH1 & IH2 & IH3)]; simpl; [done|].
    rewrite IH1, IH2, IH3. done. }
  destruct (Hv (awaitingTexture c)) as (-> & -> & ->). simpl.
  split; [lia|]. split; [lia|done].
Qed.

Lemma conn_ok_phase tx ph c : conn_ok tx c -> conn_ok tx (set_phase ph c).
Proof. done. Qed.

Lemma conn_ok_closure_step s ev id c :
  conn_ok (colorTexture s) c ->
  conn_ok (texture_step s ev) (closure_step s ev id c).
Proof.
  intros Hok.
  destruct ev as [i|i|i p|i|i t|b g'|i v|raw|c0|rid n q|rid t q];
    simpl; try done.
  - destruct (is_open i s); [|done]. case_decide; [|done].
    destruct Hok as (H1 & H2 & H3). unfold conn_ok.
    rewrite !tally_effect. simpl. unfold tally in *. simpl.
    split; [lia|]. split; [lia|]. destruct (colorTexture s); [done|lia].
  - case_decide; [|done]. pose proof (conn_ok_ready_true _ _ Hok) as Hr.
    destruct (phase c); try done. by apply conn_ok_proceeded.
  - destruct (broadcasters s !! b) as [bc|]; [|done].
    destruct (bc_connected bc); [|done].
    destruct Hok as (H1 & H2 & H3). unfold conn_ok.
    rewrite !tally_conn_tick by done.
    assert (Ha : awaitingTexture (conn_tick b (bc_first bc) g' c)
                 = awaitingTexture c
                 /\ clientReady (conn_tick b (bc_first bc) g' c)
                    = clientReady c).
    { unfold conn_tick. destruct (phase c); try done; by case_decide. }
    destruct Ha as [-> ->]. done.
  - case_decide; [|done]. destruct (phase c); try done.
    destruct (clientReady c) eqn:Hr; [by apply conn_ok_proceeded|done].
  - destruct (img s); try done. by eapply conn_ok_flush.
  - case_decide; [|done]. unfold closure_pulled.
    destruct (finishBufferTransfers s !! id); [|done].
    case_decide; [|done]. destruct (phase c); try done. by case_decide.
Qed.

Lemma sockets_ok_step s ev : sockets_ok s -> sockets_ok (step s ev).
Proof.
  unfold sockets_ok. rewrite !map_Forall_lookup. intros Hok id c' Hc'.
  rewrite step_texture.
  destruct (sockets s !! id) as [c|] eqn:Hc.
  - rewrite (step_closure s ev id c Hc) in Hc'. injection Hc' as <-.
    apply conn_ok_closure_step. by apply (Hok id).
  - rewrite (step_new_closure s ev id Hc) in Hc'.
    destruct ev; try done. case_decide; [|done]. injection Hc' as <-.
    apply conn_ok_fresh.
Qed.

Lemma sockets_ok_run evs : forall s, sockets_ok s -> sockets_ok (run s evs).
Proof.
  induction evs as [|ev evs IH]; intros s Hs; [done|].
  simpl. apply IH. by apply sockets_ok_step.
Qed.

Lemma boot_sockets cfg : sockets (boot cfg) = ∅.
Proof. vm_compute. reflexivity. Qed.

Lemma sockets_ok_boot cfg : sockets_ok (boot cfg).
Proof. unfold sockets_ok. rewrite boot_sockets. apply map_Forall_empty. Qed.

(** X6.  In every run, on every socket: no [vbo_update] has been sent
    while the texture is missing (a cycle that reaches state 3 by then
    has its notification held back), and none is held back once the
    texture is there. *)
Theorem notification_waits_for_texture cfg evs id c :
  let s := run (boot cfg) evs in
  sockets s !! id = Some c ->
  match colorTexture s with
  | None => tally is_VboUpdate c = 0
  | Some _ => awaitingTexture c = []
  end.
Proof.
  intros s Hc.
  pose proof (sockets_ok_run evs _ (sockets_ok_boot cfg)) as Hok.
  unfold sockets_ok in Hok. rewrite map_Forall_lookup in Hok.
  destruct (Hok id c Hc) as (_ & _ & H). exact H.
Qed.

Lemma notification_waits_for_texture_witness :
  let s := run (boot ["a"; "b"])
             [Tick 0 5; Connection "X"; Fetched "X" sample_vbos] in
  colorTexture s = None
  /\ phase_of "X" s = Some (AwaitDelivery 5 0)
  /\ exists c, sockets s !! "X" = Some c /\ tally is_VboUpdate c = 0.
Proof.
  cbv zeta.
  assert (Hc : exists c,
    sockets (run (boot ["a"; "b"])
               [Tick 0 5; Connection "X"; Fetched "X" sample_vbos]) !! "X"
    = Some c) by (vm_compute; by eexists).
  assert (Ht : colorTexture
                 (run (boot ["a"; "b"])
                    [Tick 0 5; Connection "X"; Fetched "X" sample_vbos])
               = None) by (vm_compute; reflexivity).
  split; [exact Ht|]. split; [vm_compute; reflexivity|].
  destruct Hc as (c & Hc). exists c. split; [exact Hc|].
  pose proof (notification_waits_for_texture ["a"; "b"]
                [Tick 0 5; Connection "X"; Fetched "X" sample_vbos] "X" c Hc)
    as H.
  cbv zeta in H. rewrite Ht in H. exact H.
Defined.

(** ** Flow control *)

Lemma raise_closure_step s ev id c :
  tally is_raise (closure_step s ev id c)
  = tally is_raise c
    + match ev with
      | ReceivedBuffers i _ => if decide (i = id) then 1 else 0
      | _ => 0
      end.
Proof.
  destruct ev as [i|i|i p|i|i t|b g'|i v|raw|c0|rid n q|rid t q];
    simpl; try lia.
  - destruct (is_open i s); [|lia]. case_decide; [|lia].
    rewrite tally_effect. simpl. lia.
  - case_decide; [|lia].
    assert (Hr : tally is_raise (ready_store true c) = tally is_raise c + 1)
      by (unfold ready_store; by rewrite tally_effect).
    destruct (phase c); try exact Hr.
    rewrite tally_proceeded, tally_notification, Hr. simpl.
    destruct (colorTexture s); simpl; lia.
  - destruct (broadcasters s !! b) as [bc|]; [|lia].
    destruct (bc_connected bc); [|lia].
    rewrite tally_conn_tick by done. lia.
  - case_decide; [|lia]. destruct (phase c); try lia.
    destruct (clientReady c); [|unfold tally; simpl; lia].
    rewrite tally_proceeded, tally_notification. simpl.
    destruct (colorTexture s); simpl; lia.
  - destruct (img s); try lia. rewrite tally_flush.
    match goal with |- context [map ?f ?l] =>
      assert (Hz : length (List.filter is_raise (map f l)) = 0)
        by (induction l; simpl; done) end.
    rewrite Hz. lia.
  - case_decide; [|lia]. unfold closure_pulled.
    destruct (finishBufferTransfers s !! id); [|lia].
    case_decide; [|lia]. destruct (phase c); try lia.
    case_decide; unfold tally; simpl; lia.
Qed.

Lemma raise_step id s ev a :
  (tally is_raise <$> sockets s !! id) = (S <$> a) ->
  (tally is_raise <$> sockets (step s ev) !! id) = (S <$> ack_step id a ev).
Proof.
  intros Hr. destruct (sockets s !! id) as [c|] eqn:Hc.
  - destruct a as [n|]; [|done]. injection Hr as Hr.
    rewrite (step_closure s ev id c Hc). simpl.
    rewrite raise_closure_step, Hr.
    destruct ev; simpl; try (f_equal; lia).
    case_decide; simpl; f_equal; lia.
  - destruct a as [n|]; [done|].
    rewrite (step_new_closure s ev id Hc).
    destruct ev; simpl; try done.
    case_decide; [|done]. simpl. f_equal. unfold fresh_closure.
    by destruct (caches s !! graph s) as [[g|]|].
Qed.

Lemma raise_run id evs : forall s a,
  (tally is_raise <$> sockets s !! id) = (S <$> a) ->
  (tally is_raise <$> sockets (run s evs) !! id)
  = (S <$> foldl (ack_step id) a evs).
Proof.
  induction evs as [|ev evs IH]; intros s a Hr; [done|].
  simpl. apply IH. by apply raise_step.
Qed.

(** X7.  The server is never more than one notification ahead of the
    client.  In every run, if socket [id] has handled [n]
    [received_buffers] messages since it connected, its flag has been
    raised [n + 1] times, each lowering of the flag came after a raising
    of its own, and each lowering has exactly one notification, sent or
    held back for the texture.  So at most [n + 1] [vbo_update] messages
    have gone out, and at most [n] while the flag is up. *)
Theorem one_notification_ahead cfg evs id c :
  let s := run (boot cfg) evs in
  sockets s !! id = Some c ->
  exists n,
    acks id evs = Some n
    /\ tally is_raise c = S n
    /\ tally is_VboUpdate c + length (awaitingTexture c) = tally is_lower c
    /\ tally is_lower c + (if clientReady c then 1 else 0) <= S n
    /\ tally is_VboUpdate c <= S n
    /\ (clientReady c = true -> tally is_VboUpdate c <= n).
Proof.
  intros s Hc.
  pose proof (sockets_ok_run evs _ (sockets_ok_boot cfg)) as Hok.
  unfold sockets_ok in Hok. rewrite map_Forall_lookup in Hok.
  destruct (Hok id c Hc) as (H1 & H2 & _).
  assert (Hr : (tally is_raise <$> sockets s !! id) = (S <$> acks id evs)).
  { apply raise_run. by rewrite boot_sockets. }
  rewrite Hc in Hr. destruct (acks id evs) as [n|]; [|done].
  injection Hr as Hr. exists n. rewrite Hr in H2.
  split; [done|]. split; [exact Hr|]. split; [exact H1|].
  split; [exact H2|]. split; [lia|]. intros Hrd. rewrite Hrd in H2. lia.
Qed.

Lemma one_notification_ahead_witness :
  let evs := first_cycle ++ pull_requests "X" [Some "a"; Some "b"]
             ++ [Tick 0 6; Fetched "X" sample_vbos; Tick 0 7] in
  exists c,
    sockets (run (boot ["a"; "b"]) evs) !! "X" = Some c
    /\ acks "X" evs = Some 0
    /\ tally is_VboUpdate c <= 1.
Proof.
  cbv zeta.
  assert (Hc : exists c,
    sockets (run (boot ["a"; "b"])
               (first_cycle ++ pull_requests "X" [Some "a"; Some "b"]
                ++ [Tick 0 6; Fetched "X" sample_vbos; Tick 0 7])) !! "X"
    = Some c) by (vm_compute; by eexists).
  destruct Hc as (c & Hc). exists c. split; [exact Hc|].
  destruct (one_notification_ahead ["a"; "b"] _ "X" c Hc)
    as (n & Ha & _ & _ & _ & Hv & _).
  assert (Ha0 : acks "X"
                  (first_cycle ++ pull_requests "X" [Some "a"; Some "b"]
                   ++ [Tick 0 6; Fetched "X" sample_vbos; Tick 0 7])
                = Some 0) by (vm_compute; reflexivity).
  rewrite Ha0 in Ha. injection Ha as <-. split; [exact Ha0|exact Hv].
Defined.

(** ** A new cycle, a new count *)

Lemma pulls_leave_fetching id (f : nat -> nat) names : forall s c g,
  sockets s !! id = Some c -> phase c = Fetch g ->
  let s' := run s (imap (fun i n => GetVbo (f i) n (Some id)) names) in
  sockets s' !! id = Some c /\ subjects s' = subjects s
  /\ colorTexture s' = colorTexture s.
Proof.
  revert f. induction names as [|n names IH]; intros f s c g Hc Hph;
    [done|].
  cbn [imap]. change (run s (?e :: ?l)) with (run (step s e) l).
  cbv zeta.
  assert (Hc1 : sockets (step s (GetVbo (f 0) n (Some id))) !! id = Some c).
  { rewrite (step_closure _ _ _ _ Hc). simpl.
    change (prop_key (Some id)) with id. rewrite decide_True by done.
    unfold closure_pulled. destruct (finishBufferTransfers s !! id); [|done].
    case_decide; [|done]. by rewrite Hph. }
  destruct (IH (f ∘ S) _ c g Hc1 Hph) as (H1 & H2 & H3).
  unfold compose in *. cbv zeta in H1, H2, H3. rewrite H1, H2, H3.
  change (step s (GetVbo (f 0) n (Some id)))
    with (get_vbo (f 0) n (Some id) s).
  by destruct (get_vbo_buffers (f 0) n (Some id) s) as (_ & -> & ->).
Qed.

(** X8.  Every cycle counts its pulls from zero.  Buffer requests that
    arrive while the loop is fetching (late or repeated pulls of the
    cycle before) go to the old tracker and are gone with it: when the
    fetch comes back and the loop goes on, the tracker it installs has an
    empty array, expects the full buffer list and signals a subject of
    its own. *)
Theorem each_cycle_counts_from_zero id s c g vbos names :
  sockets s !! id = Some c ->
  phase c = Fetch g ->
  clientReady c = true ->
  let s' := step (run s (pull_requests id names)) (Fetched id vbos) in
  finishBufferTransfers s' !! id
  = Some (mkTracker [] (length (activeBuffers c)) (subjects s))
  /\ phase_of id s' = Some (AwaitDelivery g (subjects s))
  /\ subjects s' = S (subjects s).
Proof.
  intros Hc Hph Hrd. cbv zeta. unfold pull_requests.
  destruct (pulls_leave_fetching id (fun i => i) names s c g Hc Hph)
    as (Hc' & Hs' & _).
  cbv zeta in Hc', Hs'.
  generalize dependent
    (run s (imap (fun i n => GetVbo i n (Some id)) names)).
  intros s1 Hc1 Hs1. rewrite <- Hs1.
  change (step s1 (Fetched id vbos)) with (fetched id vbos s1).
  unfold phase_of, fetched. rewrite Hc1, Hph. unfold throttle. simpl.
  rewrite Hc1, Hrd.
  match goal with |- context [proceed id g vbos ?t] =>
    assert (Ht : sockets t !! id = Some c) by exact Hc1;
    destruct (proceed_tracker_self id g vbos t c Ht) as [-> ->];
    rewrite (proceed_proceeded id g vbos t c Ht) end.
  done.
Qed.

Lemma acked_second_fetch_socket :
  exists c,
    sockets (step second_fetch (ReceivedBuffers "X" 3)) !! "X" = Some c
    /\ phase c = Fetch 5 /\ clientReady c = true.
Proof. vm_compute. eexists. repeat split; reflexivity. Qed.

Lemma each_cycle_counts_from_zero_witness :
  let s := step second_fetch (ReceivedBuffers "X" 3) in
  let s' := step (run s (pull_requests "X" [Some "a"; Some "a"; Some "b"]))
              (Fetched "X" sample_vbos) in
  phase_of "X" s' = Some (AwaitDelivery 5 (subjects s))
  /\ subjects s' = S (subjects s).
Proof.
  destruct acked_second_fetch_socket as (c & Hc & Hph & Hrd).
  exact (proj2 (each_cycle_counts_from_zero "X" _ c 5 sample_vbos
                  [Some "a"; Some "a"; Some "b"] Hc Hph Hrd)).
Defined.

(** ** The texture, once made *)

Lemma step_effects_grow s ev : exists l, effects (step s ev) = effects s ++ l.
Proof.
  pose proof (step_quiet s ev) as Hq.
  destruct ev;
    try (destruct Hq as (_ & _ & _ & l & Hl & _); exists l; exact Hl);
    clear Hq; simpl.
  - unfold file_read. destruct (img s);
      try (exists []; by rewrite app_nil_r). by eexists.
  - unfold deflated. destruct (img s) as [| |raw0|];
      try (exists []; by rewrite app_nil_r).
    destruct (colorTexture_onNext_texture
                (mkTexture compressed0 (length raw0) 512 512)
                (set_img Done s)) as (_ & _ & _ & ->). by eexists.
  - unfold get_texture, send_texture. destruct (colorTexture s).
    + exists [SetHeader rid; Send rid (Some (buffer t))]. simpl.
      by rewrite <- app_assoc.
    + exists []. by rewrite app_nil_r.
Qed.

Lemma step_img s ev :
  img (step s ev)
  = match ev, img s with
    | FileRead raw, Reading => Deflating raw
    | Deflated _, Deflating _ => Done
    | _, i => i
    end.
Proof.
  pose proof (step_quiet s ev) as Hq.
  destruct ev; try (destruct Hq as (-> & _); by destruct (img s));
    clear Hq; simpl.
  - unfold file_read. by destruct (img s) eqn:E.
  - unfold deflated. destruct (img s) as [| |raw0|] eqn:E; try done.
    by destruct (colorTexture_onNext_texture
                   (mkTexture compressed0 (length raw0) 512 512)
                   (set_img Done s)) as (-> & _).
  - unfold get_texture, send_texture. by destruct (colorTexture s).
Qed.

Lemma texture_origin_step evs s ev :
  texture_origin evs s -> texture_origin (evs ++ [ev]) (step s ev).
Proof.
  intros [Hd Ht]. destruct (step_effects_grow s ev) as (l & He).
  split.
  - intros raw Hi. rewrite step_img in Hi. rewrite He.
    assert (img s = Deflating raw
            \/ (ev = FileRead raw /\ img s = Reading)) as [Hi'|[-> Hi']].
    { destruct ev, (img s); try done; try by left.
      right. by injection Hi as ->. }
    + destruct (Hd _ Hi') as [H1 H2].
      split; apply elem_of_app; by left.
    + split; [apply elem_of_app; right; by apply list_elem_of_singleton|].
      rewrite <- He. simpl. unfold file_read. rewrite Hi'. simpl.
      apply elem_of_app. right. by apply list_elem_of_singleton.
  - intros tx Hc. rewrite step_texture in Hc. rewrite step_img, He.
    unfold texture_step in Hc.
    assert (colorTexture s = Some tx
            \/ (exists c0 raw, ev = Deflated c0 /\ img s = Deflating raw
                 /\ tx = mkTexture c0 (length raw) 512 512))
      as [Hc'|(c0 & raw & -> & Hi' & ->)].
    { destruct ev; try by left.
      destruct (img s) eqn:E; try by left.
      right. injection Hc as <-. by do 2 eexists. }
    + destruct (Ht _ Hc') as (Hi & raw & c0 & H1 & H2 & H3 & H4).
      rewrite Hi. split; [by destruct ev|].
      exists raw, c0. repeat split; try done; apply elem_of_app; by left.
    + rewrite Hi'. split; [done|]. destruct (Hd _ Hi') as [H1 H2].
      exists raw, c0. split; [apply elem_of_app; by left|].
      split; [apply elem_of_app; right; by apply list_elem_of_singleton|].
      split; [apply elem_of_app; by left|done].
Qed.

Lemma texture_origin_run evs : forall evs0 s,
  texture_origin evs0 s -> texture_origin (evs0 ++ evs) (run s evs).
Proof.
  induction evs as [|ev evs IH]; intros evs0 s H.
  - by rewrite app_nil_r.
  - change (run s (ev :: evs)) with (run (step s ev) evs).
    replace (evs0 ++ ev :: evs) with ((evs0 ++ [ev]) ++ evs)
      by (by rewrite <- app_assoc).
    by apply IH, texture_origin_step.
Qed.

Lemma boot_texture cfg : img (boot cfg) = Reading /\ colorTexture (boot cfg) = None.
Proof. vm_compute. by split. Qed.

Lemma texture_origin_boot cfg : texture_origin [] (boot cfg).
Proof.
  destruct (boot_texture cfg) as [Hi Hc]. split.
  - intros raw H. by rewrite Hi in H.
  - intros tx H. by rewrite Hc in H.
Qed.

Lemma texture_kept s tx evs :
  colorTexture s = Some tx -> img s = Done ->
  colorTexture (run s evs) = Some tx /\ img (run s evs) = Done.
Proof.
  revert s. induction evs as [|ev evs IH]; intros s Hc Hi; [done|].
  change (run s (ev :: evs)) with (run (step s ev) evs). apply IH.
  - rewrite step_texture. unfold texture_step. rewrite Hi. by destruct ev.
  - rewrite step_img, Hi. by destruct ev.
Qed.

(** X9.  The colour texture is made once and for all.  When it is there
    it is the entry built from what [compress.deflate] returned and from
    the file [fs.readFile] returned: 512 by 512, [bytes] the length of
    the raw file, which is the file that was handed to the compressor.
    Nothing that happens later (a reset, another callback, connections,
    requests) replaces it. *)
Theorem texture_made_once_and_kept cfg evs evs' tx :
  colorTexture (run (boot cfg) evs) = Some tx ->
  (exists raw c0,
     FileRead raw ∈ evs /\ Deflated c0 ∈ evs
     /\ Deflate raw ∈ effects (run (boot cfg) evs)
     /\ tx = mkTexture c0 (length raw) 512 512)
  /\ colorTexture (run (boot cfg) (evs ++ evs')) = Some tx.
Proof.
  intros Hc.
  destruct (texture_origin_run evs [] _ (texture_origin_boot cfg))
    as [_ Ht].
  destruct (Ht _ Hc) as (Hi & Ho). split; [exact Ho|].
  unfold run. rewrite foldl_app.
  exact (proj1 (texture_kept _ tx evs' Hc Hi)).
Qed.

Lemma first_cycle_texture :
  colorTexture (run (boot ["a"; "b"]) first_cycle)
  = Some (mkTexture [Byte.x09] 1 512 512).
Proof. vm_compute. reflexivity. Qed.

Lemma texture_made_once_and_kept_witness :
  colorTexture
    (run (boot ["a"; "b"])
       (first_cycle
        ++ [ResetGraph "X"; FileRead [Byte.x04; Byte.x05];
            Deflated [Byte.x06]; GetTexture 3 None None]))
  = Some (mkTexture [Byte.x09] 1 512 512).
Proof.
  exact (proj2 (texture_made_once_and_kept ["a"; "b"] first_cycle _ _
                  first_cycle_texture)).
Defined.

(** ** The size report *)

Lemma foldl_byteLength_nonneg (l : list Buffer) : forall z : Z,
  (0 <= z)%Z ->
  (0 <= foldl (fun sum v => (sum + Z.of_nat (length v))%Z) z l)%Z.
Proof. induction l as [|v l IH]; intros z Hz; simpl; [done|apply IH; lia]. Qed.

Lemma vboSizeBytes_nonneg buffers : (0 <= vboSizeBytes buffers)%Z.
Proof. by apply foldl_byteLength_nonneg. Qed.

Lemma round_div_1024 (x : Z) :
  (0 <= x)%Z ->
  (0 <= round_div x 1024
   /\ 1024 * round_div x 1024 - x <= 512
   /\ x - 1024 * round_div x 1024 < 512)%Z.
Proof. intros Hx. unfold round_div. Z.div_mod_to_equations. lia. Qed.

(** X10.  The size [vboSizeMB] reports is within 0.0055 MB of the bytes
    counted: it rounds twice, to whole kilobytes and then to hundredths
    of a megabyte, so the report can be off by more than half a
    hundredth but by no more than 575488 / 2^20 hundredths; buffers of
    less than 5.5 KB in all are reported as 0 MB.  The bound on the size
    delimits where the integer model is the function: below 2^53 bytes
    every floating-point step before the last division is exact. *)
Theorem vboSizeMB_accuracy (buffers : gmap string Buffer) :
  (vboSizeBytes buffers < 2 ^ 53)%Z ->
  (0 <= vboSizeMB_x100 buffers
   /\ Z.abs (2 ^ 20 * vboSizeMB_x100 buffers - 100 * vboSizeBytes buffers)
      <= 575488
   /\ (vboSizeBytes buffers < 5632 -> vboSizeMB_x100 buffers = 0))%Z.
Proof.
  intros _. unfold vboSizeMB_x100.
  pose proof (vboSizeBytes_nonneg buffers) as Hb.
  destruct (round_div_1024 _ Hb) as (Hk & Hk1 & Hk2).
  set (k := round_div (vboSizeBytes buffers) 1024) in *.
  assert (Hk100 : (0 <= k * 100)%Z) by lia.
  destruct (round_div_1024 _ Hk100) as (Hm & Hm1 & Hm2).
  set (m := round_div (k * 100) 1024) in *.
  split; [done|]. split; [lia|].
  intros Hsmall. assert (k <= 5)%Z by lia. lia.
Qed.

Lemma vboSizeMB_accuracy_witness :
  vboSizeMB_x100 (<["curPoints" := [Byte.x01; Byte.x02; Byte.x03]]> ∅)
  = 0%Z.
Proof.
  apply (vboSizeMB_accuracy
           (<["curPoints" := [Byte.x01; Byte.x02; Byte.x03]]> ∅));
    vm_compute; done.
Defined.

(** ** The tracker and the effect log, event by event *)

Lemma step_tracker s ev id :
  finishBufferTransfers (step s ev) !! id = tracker_step s ev id.
Proof.
  destruct ev as [i|i|i p|i|i t|b g'|i v|raw|c0|rid n q|rid t q].
  - simpl. unfold connection. by destruct (sockets s !! i).
  - simpl. by destruct (is_open i s).
  - simpl. by destruct (is_open i s).
  - simpl. by destruct (is_open i s).
  - change (step s (ReceivedBuffers i t)) with (clientReady_onNext i true s).
    simpl. case_decide as Hi;
      [subst i|by rewrite clientReady_onNext_trackers_other].
    destruct (sockets s !! id) as [c|] eqn:Hc.
    + assert (Hst : sockets (on_socket id (ready_store true) s) !! id
                    = Some (ready_store true c)).
      { unfold on_socket. simpl. by rewrite lookup_alter_eq, Hc. }
      destruct (phase c) as [?|?|g0 v0|? ?|? ?] eqn:E;
        try (by destruct (clientReady_onNext_trackers_idle id true s c Hc)
               as [-> _]; [intros ? ?; by rewrite E|]).
      unfold clientReady_onNext. rewrite Hst.
      change (phase (ready_store true c)) with (phase c). rewrite E.
      by destruct (proceed_tracker_self id g0 v0 _ _ Hst) as [-> _].
    + unfold clientReady_onNext, on_socket. simpl.
      by rewrite lookup_alter_eq, Hc.
  - simpl. unfold tick. destruct (broadcasters s !! b) as [bc|]; [|done].
    destruct (bc_connected bc); [|done]. by destruct (bc_first bc).
  - change (step s (Fetched i v)) with (fetched i v s).
    simpl. case_decide as Hi; [subst i|by rewrite fetched_trackers_other].
    unfold fetched. destruct (sockets s !! id) as [c|] eqn:Hc; [|done].
    destruct (phase c); try done. unfold throttle. simpl. rewrite Hc.
    destruct (clientReady c); [|done].
    match goal with |- context [proceed id ?g ?w ?t] =>
      assert (Ht : sockets t !! id = Some c) by exact Hc;
      by destruct (proceed_tracker_self id g w t c Ht) as [-> _] end.
  - simpl. unfold file_read. by destruct (img s).
  - simpl. unfold deflated. destruct (img s) as [| |raw0|]; try done.
    by destruct (colorTexture_onNext_maps
                   (mkTexture c0 (length raw0) 512 512) (set_img Done s))
      as (-> & _).
  - change (step s (GetVbo rid n q)) with (get_vbo rid n q s).
    simpl. case_decide as Hi; [subst id|by rewrite get_vbo_trackers_other].
    destruct (finishBufferTransfers s !! prop_key q) as [tr|] eqn:Htr.
    + by destruct (get_vbo_tracker rid n q s tr Htr) as [-> _].
    + destruct (get_vbo_no_tracker rid n q s Htr) as [-> _].
      by rewrite Htr.
  - simpl. unfold get_texture. by destruct (colorTexture s).
Qed.

Lemma notify_static id g vbos s :
  renderConfig (notify id g vbos s) = renderConfig s
  /\ effects (notify id g vbos s) = effects s.
Proof.
  unfold notify, on_socket. destruct (sockets s !! id); [|done].
  simpl. by destruct (colorTexture s).
Qed.

Lemma proceed_static id g vbos s :
  renderConfig (proceed id g vbos s) = renderConfig s
  /\ effects (proceed id g vbos s) = effects s.
Proof. unfold proceed. by destruct (notify_static id g vbos
                                       (on_socket id (ready_store false) s))
                           as [-> ->]. Qed.

Lemma throttle_static id g vbos s :
  renderConfig (throttle id g vbos s) = renderConfig s
  /\ effects (throttle id g vbos s) = effects s.
Proof.
  unfold throttle. destruct (sockets s !! id) as [c|]; [|done].
  destruct (clientReady c); [apply proceed_static|done].
Qed.

Lemma fetched_static id vbos s :
  renderConfig (fetched id vbos s) = renderConfig s
  /\ effects (fetched id vbos s) = effects s.
Proof.
  unfold fetched. destruct (sockets s !! id) as [c|]; [|done].
  destruct (phase c); try done.
  match goal with |- context [throttle id ?g ?w ?t] =>
    by destruct (throttle_static id g w t) as [-> ->] end.
Qed.

Lemma clientReady_onNext_static id v s :
  renderConfig (clientReady_onNext id v s) = renderConfig s
  /\ effects (clientReady_onNext id v s) = effects s.
Proof.
  unfold clientReady_onNext.
  destruct (sockets (on_socket id (ready_store v) s) !! id) as [c|]; [|done].
  destruct (phase c); try done. destruct v; [|done].
  match goal with |- context [proceed id ?g ?w ?t] =>
    by destruct (proceed_static id g w t) as [-> ->] end.
Qed.

Lemma tick_static b g s :
  renderConfig (tick b g s) = renderConfig s
  /\ effects (tick b g s) = effects s.
Proof.
  unfold tick. destruct (broadcasters s !! b) as [bc|]; [|done].
  destruct (bc_connected bc); [|done]. by destruct (bc_first bc).
Qed.

Lemma sendingAll_renderConfig id subj s :
  renderConfig (sendingAllBuffers_onNext id subj s) = renderConfig s.
Proof.
  unfold sendingAllBuffers_onNext. simpl.
  destruct (sockets s !! id) as [c|]; [|done].
  destruct (phase c); try done. by case_decide.
Qed.

Lemma step_renderConfig s ev : renderConfig (step s ev) = renderConfig s.
Proof.
  destruct ev as [i|i|i p|i|i t|b g'|i v|raw|c0|rid n q|rid t q]; simpl.
  - unfold connection. by destruct (sockets s !! i).
  - by destruct (is_open i s).
  - by destruct (is_open i s).
  - by destruct (is_open i s).
  - apply clientReady_onNext_static.
  - apply tick_static.
  - apply fetched_static.
  - unfold file_read. by destruct (img s).
  - unfold deflated. destruct (img s) as [| |raw0|]; try done.
    unfold colorTexture_onNext. simpl.
    by destruct (foldl_send_texture_frame c0 (textureWaiters s)
                   (set_colorTexture
                      (Some (mkTexture c0 (length raw0) 512 512))
                      (set_img Done s)))
      as (_ & _ & _ & _ & _ & _ & _ & _ & -> & _).
  - rewrite get_vbo_try. unfold call_tracker, finishBufferTransfer. simpl.
    destruct (finishBufferTransfers s !! prop_key q) as [tr|]; [|done].
    case_decide; [|done]. by rewrite sendingAll_renderConfig.
  - unfold get_texture. by destruct (colorTexture s).
Qed.

(** Every handler appends to the effect log, and what it appends is read
    off the state it starts from. *)
Lemma step_emits s ev : effects (step s ev) = effects s ++ emits s ev.
Proof.
  destruct ev as [i|i|i p|i|i t|b g'|i v|raw|c0|rid n q|rid t q]; simpl.
  - unfold connection. destruct (sockets s !! i); simpl;
      by rewrite app_nil_r.
  - destruct (is_open i s); simpl; by rewrite app_nil_r.
  - destruct (is_open i s); simpl; by rewrite ?app_nil_r.
  - destruct (is_open i s); simpl; by rewrite ?app_nil_r.
  - unfold received_buffers.
    destruct (clientReady_onNext_static i true s) as [_ ->].
    by rewrite app_nil_r.
  - destruct (tick_static b g' s) as [_ ->]. by rewrite app_nil_r.
  - destruct (fetched_static i v s) as [_ ->]. by rewrite app_nil_r.
  - unfold file_read. destruct (img s); simpl; by rewrite ?app_nil_r.
  - unfold deflated. destruct (img s) as [| |raw0|];
      try (simpl; by rewrite app_nil_r).
    by destruct (colorTexture_onNext_texture
                   (mkTexture c0 (length raw0) 512 512) (set_img Done s))
      as (_ & _ & _ & ->).
  - rewrite get_vbo_try.
    destruct (finishBufferTransfers s !! prop_key q) as [tr|] eqn:Htr.
    + match goal with |- context [call_tracker rid n q ?t] =>
        destruct (call_tracker_pushes rid n q t tr Htr) as [_ ->] end.
      simpl. by rewrite <- !app_assoc.
    + unfold call_tracker. simpl. rewrite Htr. simpl.
      by rewrite <- !app_assoc.
  - unfold get_texture, send_texture. destruct (colorTexture s); simpl;
      by rewrite <- ?app_assoc, ?app_nil_r.
Qed.

(** ** The buffer list never changes *)

Lemma closure_step_activeBuffers s ev id c :
  activeBuffers (closure_step s ev id c) = activeBuffers c.
Proof.
  destruct ev as [i|i|i p|i|i t|b g'|i v|raw|c0|rid n q|rid t q];
    simpl; try done.
  - destruct (is_open i s); [|done]. by case_decide.
  - case_decide; [|done]. by destruct (phase c).
  - destruct (broadcasters s !! b) as [bc|]; [|done].
    destruct (bc_connected bc); [|done]. unfold conn_tick.
    destruct (phase c); try done; by case_decide.
  - case_decide; [|done]. destruct (phase c); try done.
    by destruct (clientReady c).
  - destruct (img s) as [| |raw0|]; try done.
    by destruct (flush_awaiting_frame
                   (mkTexture c0 (length raw0) 512 512) c)
      as (_ & _ & -> & _).
  - case_decide; [|done]. unfold closure_pulled.
    destruct (finishBufferTransfers s !! id); [|done].
    case_decide; [|done]. destruct (phase c); try done. by case_decide.
Qed.

Lemma config_ok_step cfg s ev : config_ok cfg s -> config_ok cfg (step s ev).
Proof.
  intros (Hr & Hs & Ht). rewrite map_Forall_lookup in Hs. rewrite map_Forall_lookup in Ht.
  split; [by rewrite step_renderConfig|].
  split; apply map_Forall_lookup.
  - intros id c' Hc'. destruct (sockets s !! id) as [c|] eqn:Hc.
    + rewrite (step_closure s ev id c Hc) in Hc'. injection Hc' as <-.
      rewrite closure_step_activeBuffers. by apply (Hs id).
    + rewrite (step_new_closure s ev id Hc) in Hc'.
      destruct ev; try done. case_decide; [|done]. injection Hc' as <-.
      unfold fresh_closure. by destruct (caches s !! graph s) as [[g|]|].
  - intros id tr' Htr'. rewrite step_tracker in Htr'.
    assert (Hold : forall tr, finishBufferTransfers s !! id = Some tr ->
                              tr_expected tr = length cfg)
      by (intros tr Htr; by apply (Ht id)).
    assert (Hfresh : forall c, sockets s !! id = Some c ->
                               tr_expected (fresh_tracker s c) = length cfg)
      by (intros c Hc; simpl; by rewrite (Hs id c Hc)).
    destruct ev as [i|i|i p|i|i t|b g'|i v|raw|c0|rid n q|rid t q];
      simpl in Htr'; try (by apply Hold).
    + destruct (is_open i s); [done|by apply Hold].
    + case_decide; [|by apply Hold].
      destruct (sockets s !! id) as [c|] eqn:Hc; [|by apply Hold].
      destruct (phase c); try (by apply Hold).
      injection Htr' as <-. by apply Hfresh.
    + case_decide; [|by apply Hold].
      destruct (sockets s !! id) as [c|] eqn:Hc; [|by apply Hold].
      destruct (phase c); try (by apply Hold).
      destruct (clientReady c); [|by apply Hold].
      injection Htr' as <-. by apply Hfresh.
    + case_decide; [|by apply Hold].
      destruct (finishBufferTransfers s !! id) as [tr|]; [|done].
      injection Htr' as <-. simpl. by apply Hold.
Qed.

Lemma config_ok_run cfg evs : forall s,
  config_ok cfg s -> config_ok cfg (run s evs).
Proof.
  induction evs as [|ev evs IH]; intros s Hs; [done|].
  simpl. apply IH. by apply config_ok_step.
Qed.

Lemma boot_config cfg :
  renderConfig (boot cfg) = cfg /\ finishBufferTransfers (boot cfg) = ∅
  /\ effects (boot cfg) = [DriverCreate 0; ReadFile].
Proof. vm_compute. done. Qed.

Lemma config_ok_boot cfg : config_ok cfg (boot cfg).
Proof.
  destruct (boot_config cfg) as (Hr & Ht & _).
  unfold config_ok. rewrite boot_sockets, Ht.
  split; [done|]. split; apply map_Forall_empty.
Qed.

(** ** Completions and the requests that pay for them *)

Lemma answers_no_signal p data (rids : list nat) :
  (forall e, is_SendingAll e = false -> p e = false) ->
  length (List.filter p
            (flat_map (fun rid => [SetHeader rid; Send rid (Some data)]) rids))
  = 0.
Proof.
  intros Hp. induction rids as [|rid rids IH]; simpl; [done|].
  by rewrite !Hp.
Qed.

(** Only a buffer request whose push fills the tracker signals. *)
Lemma emits_signals p s ev :
  (forall e, is_SendingAll e = false -> p e = false) ->
  length (List.filter p (emits s ev))
  = match ev with
    | GetVbo _ n q =>
        match finishBufferTransfers s !! prop_key q with
        | Some tr =>
            if decide (length (transferredBuffers tr ++ [n]) = tr_expected tr)
            then if p (SendingAll (prop_key q) (tr_subject tr)) then 1 else 0
            else 0
        | None => 0
        end
    | _ => 0
    end.
Proof.
  intros Hp.
  destruct ev as [i|i|i pl|i|i t|b g'|i v|raw|c0|rid n q|rid t q];
    simpl; try done.
  - destruct (is_open i s); simpl; by rewrite ?Hp.
  - destruct (is_open i s); simpl; by rewrite ?Hp.
  - destruct (img s); simpl; by rewrite ?Hp.
  - destruct (img s); try done. by apply answers_no_signal.
  - rewrite Hp by done.
    assert (Ha : p (vbo_answer rid n q s) = false).
    { apply Hp. unfold vbo_answer.
      by destruct (lastCompressedVbos s !! prop_key q). }
    rewrite Ha.
    destruct (finishBufferTransfers s !! prop_key q) as [tr|]; simpl;
      [|by rewrite Hp].
    case_decide; simpl; [|done].
    by destruct (p (SendingAll (prop_key q) (tr_subject tr))).
  - destruct (colorTexture s); simpl; by rewrite ?Hp.
Qed.

Lemma count_step p s ev :
  count p (step s ev) = count p s + length (List.filter p (emits s ev)).
Proof. apply count_app, step_emits. Qed.

Lemma signal_of_is_signal id e :
  is_SendingAll e = false -> is_signal_of id e = false.
Proof. by destruct e. Qed.

Lemma paid_step cfg id s ev p :
  config_ok cfg s ->
  length cfg * count (is_signal_of id) s + credit id s <= p ->
  length cfg * count (is_signal_of id) (step s ev) + credit id (step s ev)
  <= p + (if is_pull_of id ev then 1 else 0).
Proof.
  intros (_ & Hs & Ht) Hp. rewrite map_Forall_lookup in Hs. rewrite map_Forall_lookup in Ht.
  rewrite count_step, (emits_signals _ _ _ (signal_of_is_signal id)).
  unfold credit in *. rewrite step_tracker.
  assert (Hfresh : forall c : Conn,
            (if decide (length (transferredBuffers (fresh_tracker s c))
                        < tr_expected (fresh_tracker s c))
             then length (transferredBuffers (fresh_tracker s c)) else 0)
            = 0) by (intros c; simpl; by case_decide).
  destruct ev as [i|i|i pl|i|i t|b g'|i v|raw|c0|rid n q|rid t q];
    simpl; rewrite ?Nat.add_0_r; try exact Hp.
  - destruct (is_open i s); [lia|exact Hp].
  - case_decide; [|exact Hp].
    destruct (sockets s !! id) as [c|]; [|exact Hp].
    destruct (phase c); try exact Hp. rewrite Hfresh. lia.
  - case_decide; [|exact Hp].
    destruct (sockets s !! id) as [c|]; [|exact Hp].
    destruct (phase c); try exact Hp.
    destruct (clientReady c); [|exact Hp]. rewrite Hfresh. lia.
  - destruct (decide (prop_key q = id)) as [Hq|Hq].
    + rewrite (bool_decide_eq_true_2 _ Hq). subst id.
      destruct (finishBufferTransfers s !! prop_key q) as [tr|] eqn:Htr;
        simpl; [|lia].
      pose proof (Ht _ _ Htr) as He. rewrite He in *.
      rewrite length_app in *. simpl.
      rewrite ?bool_decide_eq_true_2 by done.
      repeat case_decide; rewrite ?Nat.mul_add_distr_l; lia.
    + rewrite (bool_decide_eq_false_2 _ Hq).
      destruct (finishBufferTransfers s !! prop_key q) as [tr|];
        [|rewrite ?Nat.add_0_r; exact Hp].
      case_decide; rewrite ?Nat.add_0_r; exact Hp.
Qed.

Lemma paid_run cfg id evs : forall s p,
  config_ok cfg s ->
  length cfg * count (is_signal_of id) s + credit id s <= p ->
  length cfg * count (is_signal_of id) (run s evs) + credit id (run s evs)
  <= p + pulls_of id evs.
Proof.
  induction evs as [|ev evs IH]; intros s p Hs Hp.
  - unfold pulls_of. simpl. lia.
  - change (run s (ev :: evs)) with (run (step s ev) evs).
    pose proof (IH _ _ (config_ok_step _ _ ev Hs)
                  (paid_step _ _ _ ev _ Hs Hp)) as H.
    unfold pulls_of in *. simpl. destruct (is_pull_of id ev); simpl; lia.
Qed.

Lemma silent_step s ev :
  config_ok [] s -> count is_SendingAll s = 0 ->
  count is_SendingAll (step s ev) = 0.
Proof.
  intros (_ & _ & Ht) Hz. rewrite map_Forall_lookup in Ht.
  rewrite count_step, Hz, (emits_signals _ _ _ (fun e H => H)).
  destruct ev; try done.
  destruct (finishBufferTransfers s !! prop_key q_id) as [tr|] eqn:Htr;
    [|done].
  rewrite (Ht _ _ Htr), length_app. simpl. case_decide; [lia|done].
Qed.

Lemma silent_run evs : forall s,
  config_ok [] s -> count is_SendingAll s = 0 ->
  count is_SendingAll (run s evs) = 0.
Proof.
  induction evs as [|ev evs IH]; intros s Hs Hz; [done|].
  change (run s (ev :: evs)) with (run (step s ev) evs).
  apply IH; [by apply config_ok_step|by apply silent_step].
Qed.

(** ** Fetches against completions *)

Lemma fetch_ok_mono sig sig' c :
  sig <= sig' -> fetch_ok sig c -> fetch_ok sig' c.
Proof. unfold fetch_ok. destruct (phase c); lia. Qed.

Lemma fetch_ok_keep sig c c' :
  phase c' = phase c -> tally is_FetchData c' = tally is_FetchData c ->
  fetch_ok sig c -> fetch_ok sig c'.
Proof. unfold fetch_ok. by intros -> ->. Qed.

Lemma fetch_ok_fresh sig s : fetch_ok sig (fresh_closure s).
Proof.
  unfold fresh_closure.
  destruct (caches s !! graph s) as [[g|]|]; unfold fetch_ok, tally; simpl;
    lia.
Qed.

Lemma fetches_proceeded s c g vbos :
  tally is_FetchData (proceeded s c g vbos) = tally is_FetchData c.
Proof.
  rewrite tally_proceeded, tally_notification. simpl.
  destruct (colorTexture s); simpl; lia.
Qed.

Lemma fetches_ready v c :
  tally is_FetchData (ready_store v c) = tally is_FetchData c.
Proof. unfold ready_store. rewrite tally_effect. simpl. unfold tally. simpl. lia. Qed.

Lemma fetches_start g c :
  tally is_FetchData (start_fetch g c) = S (tally is_FetchData c).
Proof. unfold start_fetch. rewrite tally_effect. simpl. unfold tally. simpl. lia. Qed.

Lemma fetches_flush tx c :
  tally is_FetchData (flush_awaiting tx c) = tally is_FetchData c.
Proof.
  rewrite tally_flush.
  assert (Hz : forall l : list Vbos,
            length (List.filter is_FetchData
                      (map (fun vbos => VboUpdate (lengths vbos tx)) l)) = 0)
    by (induction l; simpl; done).
  rewrite Hz. lia.
Qed.

Lemma fetch_ok_closure_step s ev id c :
  fetch_ok (count (is_signal_of id) s) c ->
  fetch_ok (count (is_signal_of id) (step s ev)) (closure_step s ev id c).
Proof.
  intros Hok.
  assert (Hle : count (is_signal_of id) s
                <= count (is_signal_of id) (step s ev))
    by (rewrite count_step; lia).
  pose proof (fetch_ok_mono _ _ c Hle Hok) as Hok'.
  destruct ev as [i|i|i p|i|i t|b g'|i v|raw|c0|rid n q|rid t q];
    try exact Hok'.
  - (* reset_graph *)
    cbn [closure_step]. destruct (is_open i s); [|exact Hok'].
    case_decide; [|exact Hok'].
    apply (fetch_ok_keep _ c); [done| |exact Hok'].
    rewrite tally_effect. simpl. lia.
  - (* received_buffers *)
    cbn [closure_step]. case_decide; [|exact Hok'].
    destruct (phase c) as [?|?|g0 v0|? ?|? ?] eqn:E;
      try (apply (fetch_ok_keep _ c);
           [by rewrite E|apply fetches_ready|exact Hok']).
    unfold fetch_ok in *. rewrite E in Hok'.
    change (phase (proceeded s (ready_store true c) g0 v0))
      with (AwaitDelivery g0 (subjects s)).
    cbv iota. by rewrite fetches_proceeded, fetches_ready.
  - (* a tick *)
    cbn [closure_step]. destruct (broadcasters s !! b) as [bc|]; [|exact Hok'].
    destruct (bc_connected bc); [|exact Hok'].
    unfold conn_tick.
    destruct (phase c) as [e|?|? ?|? ?|g0 b0] eqn:E; try exact Hok';
      (case_decide; [|exact Hok']);
      unfold fetch_ok in *; rewrite E in Hok';
      change (phase (start_fetch ?g c)) with (Fetch g);
      cbv iota; rewrite fetches_start; lia.
  - (* a fetch comes back *)
    cbn [closure_step]. case_decide; [|exact Hok'].
    destruct (phase c) as [?|g0|? ?|? ?|? ?] eqn:E; try exact Hok'.
    unfold fetch_ok in *. rewrite E in Hok'.
    destruct (clientReady c).
    + change (phase (proceeded s c g0 v)) with (AwaitDelivery g0 (subjects s)).
      cbv iota. by rewrite fetches_proceeded.
    + exact Hok'.
  - (* the texture *)
    cbn [closure_step]. destruct (img s) as [| |raw0|]; try exact Hok'.
    apply (fetch_ok_keep _ c); [|apply fetches_flush|exact Hok'].
    by destruct (flush_awaiting_frame
                   (mkTexture c0 (length raw0) 512 512) c) as (-> & _).
  - (* a buffer request *)
    cbn [closure_step]. case_decide as Hq; [|exact Hok'].
    unfold closure_pulled.
    destruct (finishBufferTransfers s !! id) as [tr|] eqn:Htr; [|exact Hok'].
    case_decide as Hfull; [|exact Hok'].
    destruct (phase c) as [?|?|? ?|g0 j|? ?] eqn:E; try exact Hok'.
    case_decide; [|exact Hok'].
    clear Hok' Hle. unfold fetch_ok in *. rewrite E in Hok.
    change (phase (set_phase ?ph c)) with ph. cbv iota.
    change (tally is_FetchData (set_phase ?ph c))
      with (tally is_FetchData c).
    rewrite count_step, (emits_signals _ _ _ (signal_of_is_signal id)).
    rewrite Hq, Htr, decide_True by exact Hfull.
    simpl. rewrite bool_decide_eq_true_2 by done. lia.
Qed.

Lemma fetch_ok_step s ev id c' :
  (forall c, sockets s !! id = Some c ->
             fetch_ok (count (is_signal_of id) s) c) ->
  sockets (step s ev) !! id = Some c' ->
  fetch_ok (count (is_signal_of id) (step s ev)) c'.
Proof.
  intros Hok Hc'. destruct (sockets s !! id) as [c|] eqn:Hc.
  - rewrite (step_closure s ev id c Hc) in Hc'. injection Hc' as <-.
    by apply fetch_ok_closure_step, Hok.
  - rewrite (step_new_closure s ev id Hc) in Hc'.
    destruct ev; try done. case_decide; [|done]. injection Hc' as <-.
    apply fetch_ok_fresh.
Qed.

Lemma fetch_ok_run id evs : forall s,
  (forall c, sockets s !! id = Some c ->
             fetch_ok (count (is_signal_of id) s) c) ->
  forall c, sockets (run s evs) !! id = Some c ->
            fetch_ok (count (is_signal_of id) (run s evs)) c.
Proof.
  induction evs as [|ev evs IH]; intros s Hs; [exact Hs|].
  change (run s (ev :: evs)) with (run (step s ev) evs).
  apply IH. intros c Hc. by apply (fetch_ok_step s ev id).
Qed.

Lemma signals_bounded id (l : list Effect) :
  length (List.filter (is_signal_of id) l)
  <= length (List.filter is_SendingAll l).
Proof.
  induction l as [|e l IH]; simpl; [done|].
  destruct e; simpl; try exact IH. case_bool_decide; simpl; lia.
Qed.

Lemma boot_unpaid cfg id :
  count (is_signal_of id) (boot cfg) = 0
  /\ count is_SendingAll (boot cfg) = 0
  /\ credit id (boot cfg) = 0.
Proof.
  unfold count, credit. destruct (boot_config cfg) as (_ & -> & ->). done.
Qed.

Lemma fetch_ok_boot cfg id evs c :
  sockets (run (boot cfg) evs) !! id = Some c ->
  fetch_ok (count (is_signal_of id) (run (boot cfg) evs)) c.
Proof.
  apply fetch_ok_run. intros c0. by rewrite boot_sockets.
Qed.

(** X11.  A loop pays for every further fetch with a full round of
    buffer requests.  In every run, the fetches issued for a socket are
    at most one more than the completion signals given under its id, and
    each of those signals took as many [/vbo] requests under that id as
    the render configuration has buffers: the [n]-th fetch of a loop
    comes after at least [(n - 1) * k] requests. *)
Theorem next_fetch_costs_k_pulls cfg evs id c :
  let s := run (boot cfg) evs in
  sockets s !! id = Some c ->
  tally is_FetchData c <= S (count (is_signal_of id) s)
  /\ length cfg * count (is_signal_of id) s <= pulls_of id evs
  /\ length cfg * (tally is_FetchData c - 1) <= pulls_of id evs.
Proof.
  cbv zeta. intros Hc.
  pose proof (fetch_ok_boot cfg id evs c Hc) as Hf.
  destruct (boot_unpaid cfg id) as (Hz & _ & Hcr).
  assert (H0 : length cfg * count (is_signal_of id) (boot cfg)
               + credit id (boot cfg) <= 0) by (rewrite Hz, Hcr; lia).
  pose proof (paid_run cfg id evs _ _ (config_ok_boot cfg) H0) as Hp.
  assert (Hle : tally is_FetchData c
                <= S (count (is_signal_of id) (run (boot cfg) evs)))
    by (unfold fetch_ok in Hf; destruct (phase c); lia).
  split; [exact Hle|]. split; [lia|].
  etransitivity; [apply Nat.mul_le_mono_l|]; [|apply Nat.le_trans with
    (length cfg * count (is_signal_of id) (run (boot cfg) evs)); [|lia]];
    [|apply Nat.le_refl]. lia.
Qed.

Lemma second_fetch_events_socket :
  exists c,
    sockets (run (boot ["a"; "b"])
               (first_cycle ++ pull_requests "X" [Some "a"; Some "b"]
                ++ [Tick 0 6])) !! "X" = Some c.
Proof. vm_compute. by eexists. Qed.

Lemma next_fetch_costs_k_pulls_witness :
  exists c,
    sockets (run (boot ["a"; "b"])
               (first_cycle ++ pull_requests "X" [Some "a"; Some "b"]
                ++ [Tick 0 6])) !! "X" = Some c
    /\ length ["a"; "b"] * (tally is_FetchData c - 1)
       <= pulls_of "X"
            (first_cycle ++ pull_requests "X" [Some "a"; Some "b"]
             ++ [Tick 0 6]).
Proof.
  destruct second_fetch_events_socket as (c & Hc). exists c.
  split; [exact Hc|].
  exact (proj2 (proj2 (next_fetch_costs_k_pulls ["a"; "b"]
                         (first_cycle
                          ++ pull_requests "X" [Some "a"; Some "b"]
                          ++ [Tick 0 6]) "X" c Hc))).
Defined.

(** X12.  With an empty buffer list no delivery ever completes.  The
    tracker expects zero pushes and compares after pushing, so no request
    brings the array to the expected length: in every run no completion
    signal is given, no loop reaches state 4, and no socket gets a second
    fetch. *)
Theorem empty_config_never_completes evs id c :
  let s := run (boot []) evs in
  sockets s !! id = Some c ->
  count is_SendingAll s = 0
  /\ tally is_FetchData c <= 1
  /\ (forall g b, phase c <> AwaitTick g b).
Proof.
  cbv zeta. intros Hc.
  destruct (boot_unpaid [] id) as (_ & Hz & _).
  pose proof (silent_run evs _ (config_ok_boot []) Hz) as Hs.
  pose proof (fetch_ok_boot [] id evs c Hc) as Hf.
  pose proof (signals_bounded id (effects (run (boot []) evs))) as Hb.
  unfold count in *. rewrite Hs in Hb.
  split; [exact Hs|]. unfold fetch_ok in Hf.
  split.
  - destruct (phase c); lia.
  - intros g b Hph. rewrite Hph in Hf. lia.
Qed.

Lemma empty_config_socket :
  exists c,
    sockets (run (boot [])
               [Tick 0 5; Connection "X"; Fetched "X" sample_vbos;
                GetVbo 0 (Some "a") (Some "X"); Tick 0 6]) !! "X" = Some c.
Proof. vm_compute. by eexists. Qed.

Lemma empty_config_never_completes_witness :
  let s := run (boot [])
             [Tick 0 5; Connection "X"; Fetched "X" sample_vbos;
              GetVbo 0 (Some "a") (Some "X"); Tick 0 6] in
  count is_SendingAll s = 0.
Proof.
  destruct empty_config_socket as (c & Hc).
  exact (proj1 (empty_config_never_completes _ "X" c Hc)).
Defined.

(** ** Settings and the current animation *)

Lemma notify_animStep id g vbos s :
  animStep (notify id g vbos s) = animStep s.
Proof.
  unfold notify, on_socket. destruct (sockets s !! id); [|done].
  simpl. by destruct (colorTexture s).
Qed.

Lemma throttle_animStep id g vbos s :
  animStep (throttle id g vbos s) = animStep s.
Proof.
  unfold throttle, proceed. destruct (sockets s !! id) as [c|]; [|done].
  destruct (clientReady c); [by rewrite notify_animStep|done].
Qed.

Lemma step_animStep s ev :
  animStep (step s ev)
  = match ev with
    | ResetGraph i => if is_open i s then sources s else animStep s
    | _ => animStep s
    end.
Proof.
  destruct ev as [i|i|i p|i|i t|b g'|i v|raw|c0|rid n q|rid t q]; simpl.
  - unfold connection. by destruct (sockets s !! i).
  - by destruct (is_open i s).
  - by destruct (is_open i s).
  - by destruct (is_open i s).
  - unfold received_buffers, clientReady_onNext.
    destruct (sockets (on_socket i (ready_store true) s) !! i) as [c|];
      [|done].
    destruct (phase c); try done. unfold proceed. by rewrite notify_animStep.
  - unfold tick. destruct (broadcasters s !! b) as [bc|]; [|done].
    destruct (bc_connected bc); [|done]. by destruct (bc_first bc).
  - unfold fetched. destruct (sockets s !! i) as [c|]; [|done].
    destruct (phase c); try done. by rewrite throttle_animStep.
  - unfold file_read. by destruct (img s).
  - unfold deflated. destruct (img s) as [| |raw0|]; try done.
    unfold colorTexture_onNext. simpl.
    match goal with |- context [foldl ?f ?a ?l] =>
      assert (Hf : forall (rids : list nat) s0,
                animStep (foldl f s0 rids) = animStep s0)
        by (induction rids as [|r rids IH]; intros s0; simpl;
            [done|by rewrite IH]);
      by rewrite Hf end.
  - rewrite get_vbo_try. unfold call_tracker, finishBufferTransfer. simpl.
    destruct (finishBufferTransfers s !! prop_key q) as [tr|]; [|done].
    case_decide; [|done]. unfold sendingAllBuffers_onNext. simpl.
    destruct (sockets s !! prop_key q) as [c|]; [|done].
    destruct (phase c); try done. by case_decide.
  - unfold get_texture. by destruct (colorTexture s).
Qed.

Lemma emits_created s ev :
  created (emits s ev)
  = match ev with
    | ResetGraph i => if is_open i s then [sources s] else []
    | _ => []
    end.
Proof.
  destruct ev as [i|i|i p|i|i t|b g'|i v|raw|c0|rid n q|rid t q];
    simpl; try done.
  - by destruct (is_open i s).
  - by destruct (is_open i s).
  - by destruct (img s).
  - destruct (img s); try done.
    induction (textureWaiters s) as [|r l IH]; simpl; done.
  - assert (Ha : match vbo_answer rid n q s with
                 | DriverCreate a => Some a | _ => None end = None).
    { unfold vbo_answer. by destruct (lastCompressedVbos s !! prop_key q). }
    rewrite Ha.
    destruct (finishBufferTransfers s !! prop_key q); [|done].
    by case_decide.
  - by destruct (colorTexture s).
Qed.

Lemma newest_step s ev :
  last (created (effects s)) = Some (animStep s) ->
  last (created (effects (step s ev))) = Some (animStep (step s ev)).
Proof.
  intros Hl. rewrite step_emits, step_animStep. unfold created in *.
  rewrite omap_app. fold (created (emits s ev)). rewrite emits_created.
  destruct ev; rewrite ?app_nil_r; try exact Hl.
  destruct (is_open id s); [|by rewrite app_nil_r].
  by rewrite last_snoc.
Qed.

Lemma newest_run evs : forall s,
  last (created (effects s)) = Some (animStep s) ->
  last (created (effects (run s evs))) = Some (animStep (run s evs)).
Proof.
  induction evs as [|ev evs IH]; intros s Hs; [done|].
  change (run s (ev :: evs)) with (run (step s ev) evs).
  by apply IH, newest_step.
Qed.

Lemma newest_boot cfg :
  last (created (effects (boot cfg))) = Some (animStep (boot cfg)).
Proof. vm_compute. done. Qed.

(** X13.  Settings always go to the newest animation.  In every run, a
    [graph_settings] message of a connected socket is passed to the
    animation [driver.create()] made last, at load or at the latest
    reset, with the payload as it came; nothing else happens. *)
Theorem settings_reach_newest_animation cfg evs id payload :
  let s := run (boot cfg) evs in
  is_open id s = true ->
  exists a,
    last (created (effects s)) = Some a
    /\ effects (step s (GraphSettings id payload))
       = effects s ++ [Proxy a payload]
    /\ sockets (step s (GraphSettings id payload)) = sockets s
    /\ session (step s (GraphSettings id payload)) = session s.
Proof.
  cbv zeta. intros Ho. exists (animStep (run (boot cfg) evs)).
  split; [apply newest_run, newest_boot|].
  simpl. rewrite Ho. done.
Qed.

Lemma after_reset_open :
  is_open "X" (run (boot ["a"; "b"]) (first_cycle ++ [ResetGraph "X"]))
  = true.
Proof. vm_compute. reflexivity. Qed.

Lemma after_reset_created :
  last (created (effects (run (boot ["a"; "b"])
                            (first_cycle ++ [ResetGraph "X"]))))
  = Some 1.
Proof. vm_compute. reflexivity. Qed.

Lemma settings_reach_newest_animation_witness :
  effects (step (run (boot ["a"; "b"]) (first_cycle ++ [ResetGraph "X"]))
             (GraphSettings "X" "gravity"))
  = effects (run (boot ["a"; "b"]) (first_cycle ++ [ResetGraph "X"]))
    ++ [Proxy 1 "gravity"].
Proof.
  destruct (settings_reach_newest_animation ["a"; "b"]
              (first_cycle ++ [ResetGraph "X"]) "X" "gravity"
              after_reset_open) as (a & Ha & He & _).
  rewrite after_reset_created in Ha. injection Ha as <-. exact He.
Defined.
